(** * git-sizer: the command-line front end and the repository opener

    A shallow embedding of [git-sizer.go] (package [main]) and of
    [git/git.go] (package [git]).  Go's multiple return values are pairs,
    a nil error is [None], operating-system services and library calls whose
    code is outside the repository are fields of a host record, and the
    output a function produces is the list of events it returns. *)

From Stdlib Require Import String Ascii List Bool Arith NArith ZArith Lia.
Import ListNotations.
Open Scope string_scope.

(** ** Go values shared by both packages *)

(** An [error] value.  [pflag.ErrHelp] is a sentinel that [mainImplementation]
    compares by identity, every other error is known by its message. *)
Inductive error : Type :=
| ErrHelp
| errorString (msg : string).

Definition Error (e : error) : string :=
  match e with
  | ErrHelp => "pflag: help requested"
  | errorString msg => msg
  end.

Definition isErrHelp (e : error) : bool :=
  match e with ErrHelp => true | errorString _ => false end.

(** [errors.New] and [fmt.Errorf] with [%s]/[%w] verbs already substituted. *)
Definition errors_New (msg : string) : error := errorString msg.

Definition nl : string := String (ascii_of_nat 10) EmptyString.

(** What a run does to the outside world, in order. *)
Inductive Event : Type :=
| EvStdout (s : string)
| EvStderr (s : string)
| EvCreate (name : string)
| EvStartCPUProfile
| EvStopCPUProfile
| EvNewRepository (path : string)
| EvScan
| EvClose
| EvExit (code : Z).

(** A value together with the events produced while computing it. *)
Definition IO (A : Type) : Type := (A * list Event)%type.

Definition ret {A} (a : A) : IO A := (a, []).

Definition bind {A B} (m : IO A) (k : A -> IO B) : IO B :=
  let r := k (fst m) in (fst r, (snd m ++ snd r)%list).

Definition emit (e : Event) : IO unit := (tt, [e]).

(** [defer f()]: the events of [f] come after those of the rest of the body. *)
Definition defer {A} (e : Event) (body : IO A) : IO A :=
  (fst body, (snd body ++ [e])%list).

(** ** Package git *)

Module git.

(** [type Repository struct { path string; gitBin string }] *)
Record Repository : Type := mkRepository {
  path : string;
  gitBin : string
}.

(** An [exec.Cmd] as far as [git.go] fills it in. *)
Record Cmd : Type := mkCmd {
  Path : string;
  Args : list string;
  Dir : string
}.

(** The dynamic type of a non-nil error of [cmd.Output()]. *)
Inductive ExecFailure : Type :=
| ExecError (msg : string) (Err : error)      (* exec.Error *)
| ExitError (msg : string) (Stderr : string)  (* exec.ExitError *)
| OtherFailure (e : error).

Definition ExecFailure_error (f : ExecFailure) : error :=
  match f with
  | ExecError msg _ => errorString msg
  | ExitError msg _ => errorString msg
  | OtherFailure e => e
  end.

(** The machine the program runs on: [os/exec], [os.Lstat], the
    [path/filepath] and [bytes] helpers, and [findGitBin] (declared in a
    file of package [git] that is not part of this development). *)
Record Host : Type := mkHost {
  findGitBin : string * option error;
  Output : Cmd -> string * option ExecFailure;
  Lstat : string -> option error;
  IsAbs : string -> bool;
  Join : string -> string -> string;
  TrimSpace : string -> string
}.

Section Repo.
Variable h : Host.

(** [func smartJoin(path, relPath string) string] *)
Definition smartJoin (path relPath : string) : string :=
  if IsAbs h relPath then relPath else Join h path relPath.

(** [func GitDir(gitbin, path string) (string, error)] *)
Definition GitDir (gitbin path : string) : string * option error :=
  let cmd := mkCmd gitbin ["-C"; path; "rev-parse"; "--git-dir"] "" in
  let (out, err) := Output h cmd in
  match err with
  | Some (ExecError _ Err) =>
      ("", Some (errorString
                   ("could not run '" ++ gitbin ++ "': " ++ Error Err)))
  | Some (ExitError _ Stderr) =>
      ("", Some (errorString ("git rev-parse failed: " ++ Stderr)))
  | Some (OtherFailure e) => ("", Some e)
  | None => (smartJoin path (TrimSpace h out), None)
  end.

(** [func IsShallow(gitbin, gitdir string) (bool, error)] *)
Definition IsShallow (gitbin gitdir : string) : bool * option error :=
  let cmd := mkCmd gitbin ["rev-parse"; "--git-path"; "shallow"] gitdir in
  let (out, err) := Output h cmd in
  match err with
  | Some f =>
      (false,
       Some (errorString
               ("could not run 'git rev-parse --git-path shallow': "
                  ++ Error (ExecFailure_error f))))
  | None =>
      let shallow := smartJoin gitdir (TrimSpace h out) in
      match Lstat h shallow with
      | None =>
          (true,
           Some (errors_New
                   "this appears to be a shallow clone; full clone required"))
      | Some _ => (false, None)
      end
  end.

(** [func NewRepository(path string)], returning a [Repository] pointer
    and an [error] *)
Definition NewRepository (path : string)
  : option Repository * option error :=
  let (gitBin, err) := findGitBin h in
  match err with
  | Some e =>
      (None,
       Some (errorString
               ("could not find 'git' executable (is it in your PATH?): "
                  ++ Error e)))
  | None =>
      let (gitDir, err) := GitDir gitBin path in
      match err with
      | Some e => (None, Some e)
      | None =>
          let (shallow, err) := IsShallow gitBin gitDir in
          if shallow then (None, err)
          else (Some (mkRepository gitDir gitBin), None)
      end
  end.

End Repo.

(** An [exec.Cmd] together with the environment it is given. *)
Record EnvCmd : Type := mkEnvCmd {
  command : Cmd;
  Env : list string
}.

(** [func (repo *Repository) GitCommand(callerArgs ...string) *exec.Cmd];
    [environ] is [os.Environ()] and [devNull] is [os.DevNull]. *)
Definition GitCommand (environ : list string) (devNull : string)
    (repo : Repository) (callerArgs : list string) : EnvCmd :=
  let args := ["--no-replace-objects";
               "-c"; "advice.graftFileDeprecated=false"] in
  let args := (args ++ callerArgs)%list in
  mkEnvCmd (mkCmd (gitBin repo) args "")
           (environ ++ [("GIT_DIR=" ++ path repo)%string;
                        ("GIT_GRAFT_FILE=" ++ devNull)%string])%list.

(** [func (repo *Repository) Path() string] *)
Definition Repository_Path (repo : Repository) : string := path repo.

(** *** Reference filters

    The file of package [git] that declares [ReferenceFilter], [Polarity],
    [IncludeExcludeFilter], [PrefixFilter] and [RegexpFilter] is not part
    of this development; [git-sizer.go] only calls them. *)

(** [type ReferenceFilter func(refname string) bool] *)
Definition ReferenceFilter : Type := string -> bool.

(** Modelled from the spec: the type [git.Polarity] is missing; a rule's
    polarity is one of include and exclude (section 6). *)
Inductive Polarity : Type := Include | Exclude.

(** Modelled from the spec: the method [Polarity.Inverted] is missing; it
    gives the other one of the two polarities. *)
Definition Inverted (p : Polarity) : Polarity :=
  match p with Include => Exclude | Exclude => Include end.

(** Modelled from the spec: one rule of the ordered rule list, a pair of a
    polarity and a pattern, the pattern kept as its matching predicate. *)
Record polarizedFilter : Type := mkPolarizedFilter {
  polarity : Polarity;
  filter : ReferenceFilter
}.

(** Modelled from the spec: the type [git.IncludeExcludeFilter] is missing;
    it is the ordered rule list, oldest rule first. *)
Definition IncludeExcludeFilter : Type := list polarizedFilter.

(** Modelled from the spec: the methods [IncludeExcludeFilter.Include] and
    [IncludeExcludeFilter.Exclude] are missing; each adds one rule after
    the rules already present. *)
Definition IncludeRule (f : ReferenceFilter) (ief : IncludeExcludeFilter)
  : IncludeExcludeFilter := (ief ++ [mkPolarizedFilter Include f])%list.

Definition ExcludeRule (f : ReferenceFilter) (ief : IncludeExcludeFilter)
  : IncludeExcludeFilter := (ief ++ [mkPolarizedFilter Exclude f])%list.

(** Modelled from the spec: the method [IncludeExcludeFilter.Filter] is
    missing.  The rules are tried from the newest to the oldest, the first
    one found to match decides, and a name that reaches the front of the
    list unmatched is excluded. *)
Fixpoint decide (newestFirst : list polarizedFilter) (refname : string)
  : bool :=
  match newestFirst with
  | [] => false
  | r :: older =>
      if filter r refname then
        match polarity r with Include => true | Exclude => false end
      else decide older refname
  end.

Definition Filter (ief : IncludeExcludeFilter) : ReferenceFilter :=
  fun refname => decide (rev ief) refname.

(** Modelled from the spec: the function [git.PrefixFilter] is missing.  A
    literal prefix matches a name that starts with it and either ends
    there or goes on with a slash. *)
Definition PrefixFilter (prefix : string) : ReferenceFilter :=
  fun refname =>
    String.prefix prefix refname
    && ((String.length refname =? String.length prefix)%nat
        || match String.get (String.length prefix) refname with
           | Some c => Ascii.eqb c "/"
           | None => false
           end).

End git.

(** ** Package strconv (Go standard library) *)

Module strconv.

(** [func ParseBool(str string) (bool, error)]: exactly twelve spellings
    are accepted.  [Quote] is [strconv.Quote], which the message of the
    syntax error applies to [str]. *)
Definition ParseBool (Quote : string -> string) (str : string)
  : bool * option error :=
  if existsb (String.eqb str) ["1"; "t"; "T"; "TRUE"; "true"; "True"]
  then (true, None)
  else if existsb (String.eqb str) ["0"; "f"; "F"; "FALSE"; "false"; "False"]
  then (false, None)
  else (false,
        Some (errorString
                ("strconv.ParseBool: parsing " ++ Quote str
                   ++ ": invalid syntax"))).

(** [func FormatBool(b bool) string] *)
Definition FormatBool (b : bool) : string :=
  if b then "true" else "false".

End strconv.

(** ** Package sizes

    No file of package [sizes] is part of this development; what
    [git-sizer.go] needs from it is written after the specification. *)

Module sizes.

(** Modelled from the spec: the type [sizes.NameStyle] is missing; the
    name-disclosure style is one of none, hash and full (section 6). *)
Inductive NameStyle : Type :=
| NameStyleNone
| NameStyleHash
| NameStyleFull.

(** Modelled from the spec: the type [sizes.Threshold] is missing; the
    minimum severity is a non-negative integer (section 6). *)
Definition Threshold : Type := N.

(** Modelled from the spec: the concern engine is missing (section 4.4).
    Every metric has a fixed reasonable value and all metrics share one
    base. *)
Record Concern : Type := mkConcern {
  base : N;
  reasonable : string -> N
}.

(** The number of times [den] can be multiplied by [b] without exceeding
    [num]: the floor of the logarithm to base [b] of [num / den], and 0
    when that logarithm is negative. *)
Fixpoint floorLog (fuel : nat) (b num den : N) : N :=
  match fuel with
  | O => 0
  | S fuel' =>
      if (den * b <=? num)%N then (1 + floorLog fuel' b num (den * b))%N
      else 0%N
  end.

(** Modelled from the spec: [Severity(metricName, value)] is
    [floor(log_base(value / reasonable))] clamped at 0. *)
Definition Severity (c : Concern) (metricName : string) (value : N) : N :=
  floorLog (N.to_nat (N.size value)) (base c) value (reasonable c metricName).

(** Modelled from the spec: one row of the report, a metric and its raw
    value. *)
Record Row : Type := mkRow {
  metric : string;
  value : N
}.

(** Modelled from the spec: a report row is emitted only if its severity
    is at least the threshold. *)
Definition emitted (c : Concern) (threshold : Threshold) (r : Row) : bool :=
  (threshold <=? Severity c (metric r) (value r))%N.

Definition report (c : Concern) (threshold : Threshold) (rows : list Row)
  : list Row := List.filter (emitted c threshold) rows.

(** Modelled from the spec: [sizes.NewThresholdFlagValue(&threshold, value)]
    is missing.  It is the value of a boolean option which, switched on,
    makes [value] the threshold (0 for verbose, a high constant for
    critical only).  What a false argument does to the threshold is not
    specified and is left to [off]. *)
Definition thresholdFlagValue_Set (Quote : string -> string)
    (off : Threshold -> Threshold -> Threshold)
    (value : Threshold) (s : string) (threshold : Threshold)
  : Threshold * option error :=
  let (b, err) := strconv.ParseBool Quote s in
  match err with
  | Some e => (threshold, Some e)
  | None => if b then (value, None) else (off value threshold, None)
  end.

End sizes.

(** ** Package main: git-sizer.go *)

(** Everything [mainImplementation] calls that is neither in [git-sizer.go]
    nor in [git/git.go]: the operating system, Go's libraries, [pflag]'s
    messages, and the parts of packages [git] and [sizes] that the
    specification leaves open. *)
Record World : Type := mkWorld {
  HistorySize : Type;
  host : git.Host;
  (* var ReleaseVersion, var BuildVersion: set when the program is linked *)
  ReleaseVersion : string;
  BuildVersion : string;
  (* isatty.Isatty(os.Stderr.Fd()) *)
  Isatty : bool * option error;
  (* os.Create *)
  Create : string -> option error;
  (* strconv.ParseUint(s, 0, 64), as pflag's uint value calls it *)
  ParseUint : string -> error + N;
  (* strconv.Quote, which is also the verb %q of a string, and the verb %v
     of a HistorySize *)
  quote : string -> string;
  formatHistorySize : HistorySize -> string;
  (* the messages of pflag's parse errors *)
  invalidArgument : string -> string -> error -> string;
  unknownFlag : string -> string;
  needsAnArgument : string -> string;
  (* json.MarshalIndent(historySize, "", "    ") *)
  MarshalIndent : HistorySize -> error + string;
  (* git.RegexpFilter *)
  RegexpFilter : string -> error + git.ReferenceFilter;
  (* sizes.NameStyle.Set, sizes.Threshold.Set and the reaction of a
     threshold flag value to a false argument *)
  NameStyle_Set : string -> error + sizes.NameStyle;
  Threshold_Set : string -> error + sizes.Threshold;
  thresholdOff : sizes.Threshold -> sizes.Threshold -> sizes.Threshold;
  (* sizes.ScanRepositoryUsingGraph: the reference names it offers to the
     filter, in order, and what it returns *)
  Scan : option git.Repository -> git.ReferenceFilter -> sizes.NameStyle ->
         bool -> list string * (HistorySize * option error);
  (* HistorySize.TableString and HistorySize.JSON *)
  TableString : HistorySize -> sizes.Threshold -> sizes.NameStyle -> string;
  JSON : HistorySize -> sizes.Threshold -> sizes.NameStyle -> error + string
}.

(** [const Usage] *)
Definition Usage : string := "usage: git-sizer [OPTS]

  -v, --verbose                report all statistics, whether concerning or not
      --threshold THRESHOLD    minimum level of concern (i.e., number of stars)
                               that should be reported. Default:
                               '--threshold=1'.
      --critical               only report critical statistics
      --names=[none|hash|full] display names of large objects in the specified
                               style: 'none' (omit footnotes entirely), 'hash'
                               (show only the SHA-1s of objects), or 'full'
                               (show full names). Default is '--names=full'.
  -j, --json                   output results in JSON format
      --json-version=[1|2]     choose which JSON format version to output.
                               Default: --json-version=1.
      --[no-]progress          report [don't report] progress to stderr.
      --version                only report the git-sizer version number

 Reference selection:

 By default, git-sizer processes all Git objects that are reachable from any
 reference. The following options can be used to limit which references to
 include. The last rule matching a reference determines whether that reference
 is processed:

      --[no-]branches          process [don't process] branches
      --[no-]tags              process [don't process] tags
      --[no-]remotes           process [don't process] remote-tracking references
      --[no-]notes             process [don't process] git-notes references
      --[no-]stash             process [don't process] refs/stash
      --include PREFIX         process references with the specified PREFIX
                               (e.g., '--include=refs/remotes/origin')
      --include-regexp REGEXP  process references matching the specified
                               regular expression (e.g.,
                               '--include-regexp=refs/tags/release-.*')
      --exclude PREFIX         don't process references with the specified
                               PREFIX (e.g., '--exclude=refs/changes')
      --exclude-regexp REGEXP  don't process references matching the specified
                               regular expression
      --show-refs              show which refs are being included/excluded

 Prefixes must match at a boundary; for example 'refs/foo' matches
 'refs/foo' and 'refs/foo/bar' but not 'refs/foobar'. Regular
 expression patterns must match the full reference name.

".

(** The variables that [mainImplementation] declares and its flags write. *)
Record Vars : Type := mkVars {
  nameStyle : sizes.NameStyle;
  cpuprofile : string;
  jsonOutput : bool;
  jsonVersion : N;
  threshold : sizes.Threshold;
  progress : bool;
  version : bool;
  filter : git.IncludeExcludeFilter;
  showRefs : bool
}.

Definition set_nameStyle (x : sizes.NameStyle) (v : Vars) : Vars :=
  mkVars x (cpuprofile v) (jsonOutput v) (jsonVersion v) (threshold v)
         (progress v) (version v) (filter v) (showRefs v).
Definition set_cpuprofile (x : string) (v : Vars) : Vars :=
  mkVars (nameStyle v) x (jsonOutput v) (jsonVersion v) (threshold v)
         (progress v) (version v) (filter v) (showRefs v).
Definition set_jsonOutput (x : bool) (v : Vars) : Vars :=
  mkVars (nameStyle v) (cpuprofile v) x (jsonVersion v) (threshold v)
         (progress v) (version v) (filter v) (showRefs v).
Definition set_jsonVersion (x : N) (v : Vars) : Vars :=
  mkVars (nameStyle v) (cpuprofile v) (jsonOutput v) x (threshold v)
         (progress v) (version v) (filter v) (showRefs v).
Definition set_threshold (x : sizes.Threshold) (v : Vars) : Vars :=
  mkVars (nameStyle v) (cpuprofile v) (jsonOutput v) (jsonVersion v) x
         (progress v) (version v) (filter v) (showRefs v).
Definition set_progress (x : bool) (v : Vars) : Vars :=
  mkVars (nameStyle v) (cpuprofile v) (jsonOutput v) (jsonVersion v)
         (threshold v) x (version v) (filter v) (showRefs v).
Definition set_version (x : bool) (v : Vars) : Vars :=
  mkVars (nameStyle v) (cpuprofile v) (jsonOutput v) (jsonVersion v)
         (threshold v) (progress v) x (filter v) (showRefs v).
Definition set_filter (x : git.IncludeExcludeFilter) (v : Vars) : Vars :=
  mkVars (nameStyle v) (cpuprofile v) (jsonOutput v) (jsonVersion v)
         (threshold v) (progress v) (version v) x (showRefs v).
Definition set_showRefs (x : bool) (v : Vars) : Vars :=
  mkVars (nameStyle v) (cpuprofile v) (jsonOutput v) (jsonVersion v)
         (threshold v) (progress v) (version v) (filter v) x.

(** [func (v *NegatedBoolValue) Set(s string) error], for the variable
    [progress] it is registered with: the variable is written even when
    [s] does not parse. *)
Definition NegatedBoolValue_Set (w : World) (s : string) (v : Vars)
  : Vars * option error :=
  let (b, err) := strconv.ParseBool (quote w) s in
  (set_progress (negb b) v, err).

(** [func (v *NegatedBoolValue) Get() interface{}], for the same variable. *)
Definition NegatedBoolValue_Get (v : Vars) : bool := negb (progress v).

(** [func (v *NegatedBoolValue) String() string]; the argument is what
    [v.value] points to, [None] when [v] or [v.value] is nil. *)
Definition NegatedBoolValue_String (value : option bool) : string :=
  match value with
  | None => "true"
  | Some b => strconv.FormatBool (negb b)
  end.

(** [func (v *NegatedBoolValue) Type() string] *)
Definition NegatedBoolValue_Type : string := "bool".

(** [type filterValue struct]; the field [filter] points to the variable
    [filter] of [mainImplementation]. *)
Record filterValue : Type := mkFilterValue {
  fv_polarity : git.Polarity;
  fv_pattern : string;
  fv_regexp : bool
}.

(** [func (v *filterValue) Set(s string) error], as a function of the rule
    list that [v.filter] points to. *)
Definition filterValue_Set (w : World) (v : filterValue) (s : string)
    (rules : git.IncludeExcludeFilter)
  : git.IncludeExcludeFilter * option error :=
  let polarity := fv_polarity v in
  let chosen : error + (string * git.Polarity) :=
    if negb (fv_pattern v =? "") then
      (* The pattern is fixed for this option *)
      let (b, err) := strconv.ParseBool (quote w) s in
      match err with
      | Some e => inl e
      | None =>
          inr (fv_pattern v, if negb b then git.Inverted polarity else polarity)
      end
    else
      (* The user must supply the pattern *)
      inr (s, polarity) in
  match chosen with
  | inl e => (rules, Some e)
  | inr (pattern, polarity) =>
      let built : error + git.ReferenceFilter :=
        if fv_regexp v then
          match RegexpFilter w pattern with
          | inl _ => inl (errorString ("invalid regexp: " ++ quote w s))
          | inr f => inr f
          end
        else inr (git.PrefixFilter pattern) in
      match built with
      | inl e => (rules, Some e)
      | inr f =>
          match polarity with
          | git.Include => (git.IncludeRule f rules, None)
          | git.Exclude => (git.ExcludeRule f rules, None)
          end
      end
  end.

(** [func (v *filterValue) Type() string] *)
Definition filterValue_Type (v : filterValue) : string :=
  if negb (fv_pattern v =? "") then "bool"
  else if fv_regexp v then "regexp"
  else "prefix".

(** *** The flag set

    [pflag] splits the argument strings into occurrences of options and
    operands before any value is set; the model starts from the
    occurrences.  [Opt name (Some s)] stands for [--name=s] (or [--name s]
    for an option that takes its value from the next argument), and
    [Opt name None] for a bare [--name] or its shorthand. *)
Inductive Arg : Type :=
| Opt (name : string) (value : option string)
| Operand (s : string).

(** A registered flag: its name, shorthand and [NoOptDefVal], and the [Set]
    method of its value. *)
Record Flag : Type := mkFlag {
  Name : string;
  Shorthand : string;
  NoOptDefVal : string;
  Value_Set : string -> Vars -> Vars * option error
}.

(** The [Set] methods of pflag's own boolean, unsigned and string values. *)
Definition boolValue_Set (w : World) (store : bool -> Vars -> Vars)
    (s : string) (v : Vars) : Vars * option error :=
  let (b, err) := strconv.ParseBool (quote w) s in (store b v, err).

Definition uintValue_Set (w : World) (s : string) (v : Vars)
  : Vars * option error :=
  match ParseUint w s with
  | inl e => (v, Some e)
  | inr n => (set_jsonVersion n v, None)
  end.

Definition stringValue_Set (s : string) (v : Vars) : Vars * option error :=
  (set_cpuprofile s v, None).

Definition filterFlag (w : World) (fv : filterValue) (s : string) (v : Vars)
  : Vars * option error :=
  let (rules, err) := filterValue_Set w fv s (filter v) in
  (set_filter rules v, err).

Definition thresholdFlag (w : World) (value : sizes.Threshold) (s : string)
    (v : Vars) : Vars * option error :=
  let (t, err) := sizes.thresholdFlagValue_Set (quote w) (thresholdOff w)
                    value s (threshold v) in
  (set_threshold t v, err).

Definition Threshold_Set_flag (w : World) (s : string) (v : Vars)
  : Vars * option error :=
  match Threshold_Set w s with
  | inl e => (v, Some e)
  | inr t => (set_threshold t v, None)
  end.

Definition NameStyle_Set_flag (w : World) (s : string) (v : Vars)
  : Vars * option error :=
  match NameStyle_Set w s with
  | inl e => (v, Some e)
  | inr n => (set_nameStyle n v, None)
  end.

(** The flags in the order [mainImplementation] registers them. *)
Definition flags (w : World) : list Flag :=
  [ mkFlag "include" "" ""
      (filterFlag w (mkFilterValue git.Include "" false));
    mkFlag "include-regexp" "" ""
      (filterFlag w (mkFilterValue git.Include "" true));
    mkFlag "exclude" "" ""
      (filterFlag w (mkFilterValue git.Exclude "" false));
    mkFlag "exclude-regexp" "" ""
      (filterFlag w (mkFilterValue git.Exclude "" true));
    mkFlag "branches" "" "true"
      (filterFlag w (mkFilterValue git.Include "refs/heads" false));
    mkFlag "no-branches" "" "true"
      (filterFlag w (mkFilterValue git.Exclude "refs/heads" false));
    mkFlag "tags" "" "true"
      (filterFlag w (mkFilterValue git.Include "refs/tags" false));
    mkFlag "no-tags" "" "true"
      (filterFlag w (mkFilterValue git.Exclude "refs/tags" false));
    mkFlag "remotes" "" "true"
      (filterFlag w (mkFilterValue git.Include "refs/remotes" false));
    mkFlag "no-remotes" "" "true"
      (filterFlag w (mkFilterValue git.Exclude "refs/remotes" false));
    mkFlag "notes" "" "true"
      (filterFlag w (mkFilterValue git.Include "refs/notes" false));
    mkFlag "no-notes" "" "true"
      (filterFlag w (mkFilterValue git.Exclude "refs/notes" false));
    mkFlag "stash" "" "true"
      (filterFlag w (mkFilterValue git.Include "refs/stash" true));
    mkFlag "no-stash" "" "true"
      (filterFlag w (mkFilterValue git.Exclude "refs/stash" true));
    mkFlag "verbose" "v" "true" (thresholdFlag w 0%N);
    mkFlag "threshold" "" "" (Threshold_Set_flag w);
    mkFlag "critical" "" "true" (thresholdFlag w 30%N);
    mkFlag "names" "" "" (NameStyle_Set_flag w);
    mkFlag "json" "j" "true" (boolValue_Set w set_jsonOutput);
    mkFlag "json-version" "" "" (uintValue_Set w);
    mkFlag "progress" "" "true" (boolValue_Set w set_progress);
    mkFlag "show-refs" "" "true" (boolValue_Set w set_showRefs);
    mkFlag "version" "" "true" (boolValue_Set w set_version);
    mkFlag "no-progress" "" "true" (NegatedBoolValue_Set w);
    mkFlag "cpuprofile" "" "" stringValue_Set ].

Definition lookupFlag (w : World) (name : string) : option Flag :=
  List.find (fun f => Name f =? name) (flags w).

(** The name under which pflag reports a flag in an error message. *)
Definition flagName (f : Flag) : string :=
  if Shorthand f =? "" then "--" ++ Name f
  else "-" ++ Shorthand f ++ ", --" ++ Name f.

(** [flags.Parse(args)]: the values are set from left to right, the first
    error stops the parse, and a request for help prints [Usage] and gives
    [pflag.ErrHelp].  The result is the variables, the operands
    ([flags.Args()]) and the error. *)
Fixpoint Parse (w : World) (args : list Arg) (v : Vars) (operands : list string)
  : IO (Vars * list string * option error) :=
  match args with
  | [] => ret (v, operands, None)
  | Operand s :: rest => Parse w rest v (operands ++ [s])%list
  | Opt name value :: rest =>
      match lookupFlag w name with
      | None =>
          if name =? "help" then
            bind (emit (EvStdout Usage))
                 (fun _ => ret (v, operands, Some ErrHelp))
          else ret (v, operands, Some (errorString (unknownFlag w name)))
      | Some f =>
          let given :=
            match value with
            | Some s => Some s
            | None =>
                if NoOptDefVal f =? "" then None else Some (NoOptDefVal f)
            end in
          match given with
          | None => ret (v, operands, Some (errorString (needsAnArgument w name)))
          | Some s =>
              let (v', err) := Value_Set f s v in
              match err with
              | Some e =>
                  ret (v', operands,
                       Some (errorString (invalidArgument w s (flagName f) e)))
              | None => Parse w rest v' operands
              end
          end
      end
  end.

(** *** mainImplementation *)

(** The closure that replaces [refFilter] when [showRefs] is set. *)
Definition showRefsFilter (oldRefFilter : string -> IO bool)
  : string -> IO bool :=
  fun refname =>
    bind (oldRefFilter refname) (fun b =>
    bind (if b then emit (EvStderr ("+ " ++ refname ++ nl))
          else emit (EvStderr ("  " ++ refname ++ nl))) (fun _ =>
    ret b)).

(** Modelled from the spec: [sizes.ScanRepositoryUsingGraph] is missing.
    The scan consults the reference filter as a predicate,
    [Filter(referenceName) -> bool] (section 6); whatever else the filter
    does happens once for every name the scan offers to it. *)
Definition ScanRepositoryUsingGraph (w : World) (repo : option git.Repository)
    (refFilter : string -> IO bool) (nameStyle : sizes.NameStyle)
    (progress : bool) : IO (HistorySize w * option error) :=
  let r := Scan w repo (fun refname => fst (refFilter refname))
                nameStyle progress in
  (snd r, EvScan :: flat_map (fun refname => snd (refFilter refname)) (fst r)).

(** Lines 380-399: the result is written as JSON or as a table. *)
Definition writeResult (w : World) (v : Vars) (historySize : HistorySize w)
  : IO (option error) :=
  if jsonOutput v then
    let encoded : option (error + string) :=
      if (jsonVersion v =? 1)%N then Some (MarshalIndent w historySize)
      else if (jsonVersion v =? 2)%N then
        Some (JSON w historySize (threshold v) (nameStyle v))
      else None in
    match encoded with
    | None => ret (Some (errorString "JSON version must be 1 or 2"))
    | Some (inl err) =>
        ret (Some (errorString
                     ("could not convert " ++ formatHistorySize w historySize
                        ++ " to json: " ++ Error err)))
    | Some (inr j) => bind (emit (EvStdout (j ++ nl))) (fun _ => ret None)
    end
  else
    bind (emit (EvStdout (TableString w historySize (threshold v) (nameStyle v))))
         (fun _ => ret None).

(** Lines 351-399: the repository is opened and scanned. *)
Definition scanAndReport (w : World) (v : Vars) : IO (option error) :=
  bind (emit (EvNewRepository ".")) (fun _ =>
  let (repo, err) := git.NewRepository (host w) "." in
  match err with
  | Some e =>
      ret (Some (errorString ("couldn't open Git repository: " ++ Error e)))
  | None =>
      defer EvClose
        (let refFilter : string -> IO bool :=
           fun refname => ret (git.Filter (filter v) refname) in
         bind (if showRefs v then
                 bind (emit (EvStderr
                               ("References (included references marked with '+'):"
                                  ++ nl)))
                      (fun _ => ret (showRefsFilter refFilter))
               else ret refFilter) (fun refFilter =>
         bind (ScanRepositoryUsingGraph w repo refFilter (nameStyle v)
                                        (progress v)) (fun scanned =>
         match snd scanned with
         | Some e =>
             ret (Some (errorString ("error scanning repository: " ++ Error e)))
         | None => writeResult w v (fst scanned)
         end)))
  end).

(** Lines 329-336: the CPU profile, when one is asked for, runs until the
    function returns. *)
Definition withCPUProfile (w : World) (v : Vars) (body : IO (option error))
  : IO (option error) :=
  if negb (cpuprofile v =? "") then
    bind (emit (EvCreate (cpuprofile v))) (fun _ =>
    match Create w (cpuprofile v) with
    | Some e =>
        ret (Some (errorString
                     ("couldn't set up cpuprofile file: " ++ Error e)))
    | None => bind (emit EvStartCPUProfile) (fun _ => defer EvStopCPUProfile body)
    end)
  else body.

(** The variables as declared, before any flag is parsed. *)
Definition initialVars (w : World) : Vars :=
  let atty :=
    let (atty, err) := Isatty w in
    match err with Some _ => false | None => atty end in
  mkVars sizes.NameStyleFull "" false 1%N 1%N atty false [] false.

(** Lines 317-349, after the parse. *)
Definition afterParse (w : World) (v : Vars) (operands : list string)
    (err : option error) : IO (option error) :=
  match err with
  | Some e => if isErrHelp e then ret None else ret (Some e)
  | None =>
      if jsonOutput v && negb ((jsonVersion v =? 1)%N || (jsonVersion v =? 2)%N)
      then ret (Some (errorString "JSON version must be 1 or 2"))
      else
        withCPUProfile w v
          (if version v then
             bind (emit (EvStdout
                           (if negb (ReleaseVersion w =? "")
                            then "git-sizer release " ++ ReleaseVersion w ++ nl
                            else "git-sizer build " ++ BuildVersion w ++ nl)))
                  (fun _ => ret None)
           else if negb (List.length operands =? 0)%nat then
             ret (Some (errors_New "excess arguments"))
           else scanAndReport w v)
  end.

(** [func mainImplementation(args []string) error] *)
Definition mainImplementation (w : World) (args : list Arg) : IO (option error) :=
  bind (Parse w args (initialVars w) []) (fun parsed =>
  afterParse w (fst (fst parsed)) (snd (fst parsed)) (snd parsed)).

(** [func main()] *)
Definition main (w : World) (args : list Arg) : IO unit :=
  bind (mainImplementation w args) (fun err =>
  match err with
  | Some e =>
      bind (emit (EvStderr ("error: " ++ Error e ++ nl))) (fun _ =>
      emit (EvExit 1))
  | None => ret tt
  end).

(** The parse went through and nothing stops the run before the repository
    is opened: the JSON version is acceptable or unused, the file of the CPU
    profile (if one is asked for) can be created, no version report is
    asked for, and there are no operands. *)
Definition reachesScan (w : World) (args : list Arg) (v : Vars) : Prop :=
  fst (Parse w args (initialVars w) []) = (v, [], None)
  /\ (jsonOutput v && negb ((jsonVersion v =? 1)%N || (jsonVersion v =? 2)%N))
     = false
  /\ (cpuprofile v = "" \/ Create w (cpuprofile v) = None)
  /\ version v = false.

(** The error value that [IsShallow] creates. *)
Definition shallowError : error :=
  errors_New "this appears to be a shallow clone; full clone required".

(** Whether a rule of this polarity lets the names it matches in. *)
Definition includes (p : git.Polarity) : bool :=
  match p with git.Include => true | git.Exclude => false end.

(** The options whose pattern is built in, with the polarity, the pattern
    and the kind of pattern that lines 213-271 give to each. *)
Definition builtInOptions : list (string * filterValue) :=
  [("branches", mkFilterValue git.Include "refs/heads" false);
   ("no-branches", mkFilterValue git.Exclude "refs/heads" false);
   ("tags", mkFilterValue git.Include "refs/tags" false);
   ("no-tags", mkFilterValue git.Exclude "refs/tags" false);
   ("remotes", mkFilterValue git.Include "refs/remotes" false);
   ("no-remotes", mkFilterValue git.Exclude "refs/remotes" false);
   ("notes", mkFilterValue git.Include "refs/notes" false);
   ("no-notes", mkFilterValue git.Exclude "refs/notes" false);
   ("stash", mkFilterValue git.Include "refs/stash" true);
   ("no-stash", mkFilterValue git.Exclude "refs/stash" true)].

Definition isStderr (e : Event) : bool :=
  match e with EvStderr _ => true | _ => false end.

(** What a run does apart from writing to stderr. *)
Definition withoutStderr (events : list Event) : list Event :=
  List.filter (fun e => negb (isStderr e)) events.

(** The lines that [--show-refs] writes to stderr. *)
Definition showRefsLine (s : string) : Prop :=
  s = "References (included references marked with '+'):" ++ nl
  \/ exists refname, s = "+ " ++ refname ++ nl \/ s = "  " ++ refname ++ nl.

(** An event that neither ends the process nor writes to stderr anything
    but a line of [--show-refs]. *)
Definition presentsNoError (e : Event) : Prop :=
  match e with
  | EvExit _ => False
  | EvStderr s => showRefsLine s
  | _ => True
  end.

(** ** A small world to run the model in *)

Module Example.

Definition doubleQuote : string := String (ascii_of_nat 34) EmptyString.

Definition isDigit (c : ascii) : bool :=
  ((48 <=? nat_of_ascii c) && (nat_of_ascii c <=? 57))%nat.

Fixpoint decimal (s : string) (acc : N) : option N :=
  match s with
  | EmptyString => Some acc
  | String c rest =>
      if isDigit c
      then decimal rest (acc * 10 + N.of_nat (nat_of_ascii c - 48))%N
      else None
  end.

Definition parseDecimal (what s : string) : error + N :=
  match s with
  | EmptyString => inl (errorString (what ++ ": invalid syntax"))
  | _ => match decimal s 0%N with
         | Some n => inr n
         | None => inl (errorString (what ++ ": invalid syntax"))
         end
  end.

Fixpoint contains (c : ascii) (s : string) : bool :=
  match s with
  | EmptyString => false
  | String d rest => Ascii.eqb c d || contains c rest
  end.

(** A stand-in for a regular-expression engine: a pattern without
    parentheses matches itself, one with a parenthesis is rejected. *)
Definition literalRegexp (pattern : string) : error + git.ReferenceFilter :=
  if contains "(" pattern || contains ")" pattern
  then inl (errorString "error parsing regexp")
  else inr (String.eqb pattern).

Definition parseNameStyle (s : string) : error + sizes.NameStyle :=
  if s =? "none" then inr sizes.NameStyleNone
  else if s =? "hash" then inr sizes.NameStyleHash
  else if s =? "full" then inr sizes.NameStyleFull
  else inl (errorString "not a valid name style").

Fixpoint dropNewlines (s : string) : string :=
  match s with
  | EmptyString => EmptyString
  | String c rest =>
      if Ascii.eqb c (ascii_of_nat 10) then dropNewlines rest
      else String c (dropNewlines rest)
  end.

(** A machine with git installed whose current directory is a repository;
    [files] are the paths that exist for [os.Lstat]. *)
Definition machine (files : list string) : git.Host :=
  git.mkHost
    ("/usr/bin/git", None)
    (fun cmd =>
       match git.Args cmd with
       | ["-C"; _; "rev-parse"; "--git-dir"] => (".git" ++ nl, None)
       | ["rev-parse"; "--git-path"; "shallow"] => ("shallow" ++ nl, None)
       | _ => ("", Some (git.ExitError "exit status 129" "usage: git"))
       end)
    (fun name =>
       if existsb (String.eqb name) files then None
       else Some (errorString ("lstat " ++ name ++ ": no such file or directory")))
    (String.prefix "/")
    (fun dir rel => if dir =? "." then rel else dir ++ "/" ++ rel)
    dropNewlines.

Definition concern : sizes.Concern := sizes.mkConcern 2 (fun _ => 10%N).

Definition aggregate : list sizes.Row :=
  [sizes.mkRow "max-blob-size" 100; sizes.mkRow "unique-tree-count" 3].

Definition table (rows : list sizes.Row) (t : sizes.Threshold)
    (_ : sizes.NameStyle) : string :=
  String.concat nl (map sizes.metric (sizes.report concern t rows)).

Definition world (files : list string) : World :=
  mkWorld (list sizes.Row) (machine files) "1.5.0" "" (true, None)
    (fun _ => None)
    (parseDecimal "strconv.ParseUint")
    (fun s => doubleQuote ++ s ++ doubleQuote)
    (fun _ => "{...}")
    (fun value flag e =>
       "invalid argument " ++ doubleQuote ++ value ++ doubleQuote ++ " for "
         ++ doubleQuote ++ flag ++ doubleQuote ++ " flag: " ++ Error e)
    (fun name => "unknown flag: --" ++ name)
    (fun name => "flag needs an argument: --" ++ name)
    (fun _ => inr "{}")
    literalRegexp
    parseNameStyle
    (parseDecimal "strconv.ParseUint")
    (fun _ current => current)
    (fun _ _ _ _ =>
       (["refs/heads/main"; "refs/tags/v1"], (aggregate, None)))
    table
    (fun rows t ns => inr (table rows t ns)).

(** The rule list of [--branches --exclude refs/heads/archive]. *)
Definition branchesButArchive : git.IncludeExcludeFilter :=
  [git.mkPolarizedFilter git.Include (git.PrefixFilter "refs/heads");
   git.mkPolarizedFilter git.Exclude (git.PrefixFilter "refs/heads/archive")].

(** A machine on which git finds the git directory but fails when asked
    for the path of the [shallow] file. *)
Definition machineWithoutGitPath : git.Host :=
  git.mkHost
    ("/usr/bin/git", None)
    (fun cmd =>
       match git.Args cmd with
       | ["-C"; _; "rev-parse"; "--git-dir"] => (".git" ++ nl, None)
       | _ => ("", Some (git.ExitError "exit status 128" "fatal"))
       end)
    (fun _ => None)
    (String.prefix "/")
    (fun dir rel => if dir =? "." then rel else dir ++ "/" ++ rel)
    dropNewlines.

(** A full clone and a shallow clone. *)
Definition fullClone : World := world [".git"].
Definition shallowClone : World := world [".git"; ".git/shallow"].

(** The full clone's world on the machine where every path exists, the
    [shallow] file among them, and git fails when asked for its path. *)
Definition shallowCloneWithoutGitPath : World :=
  mkWorld (HistorySize fullClone) machineWithoutGitPath
    (ReleaseVersion fullClone) (BuildVersion fullClone) (Isatty fullClone)
    (Create fullClone) (ParseUint fullClone) (quote fullClone)
    (formatHistorySize fullClone) (invalidArgument fullClone)
    (unknownFlag fullClone) (needsAnArgument fullClone)
    (MarshalIndent fullClone) (RegexpFilter fullClone)
    (NameStyle_Set fullClone) (Threshold_Set fullClone)
    (thresholdOff fullClone) (Scan fullClone) (TableString fullClone)
    (JSON fullClone).

End Example.

(** * Properties *)

(** ** Strings *)

Lemma append_empty_r (s : string) : s ++ "" = s.
Proof. induction s as [|c s IH]; simpl; [reflexivity | now rewrite IH]. Qed.

Lemma length_append (a b : string) :
  String.length (a ++ b) = String.length a + String.length b.
Proof. induction a as [|x a IH]; simpl; [reflexivity | now rewrite IH]. Qed.

Lemma get_append_length (a b : string) :
  String.get (String.length a) (a ++ b) = String.get 0 b.
Proof. induction a as [|x a IH]; simpl; [reflexivity | exact IH]. Qed.

Lemma prefix_append (p r : string) : String.prefix p (p ++ r) = true.
Proof.
  induction p as [|c p IH]; simpl.
  - now destruct r.
  - destruct (ascii_dec c c) as [_|ne]; [exact IH | now elim ne].
Qed.

Lemma prefix_split (p s : string) :
  String.prefix p s = true -> exists r, s = p ++ r.
Proof.
  revert s. induction p as [|c p IH]; intros s H.
  - now exists s.
  - destruct s as [|d s]; simpl in H; [discriminate|].
    destruct (ascii_dec c d) as [->|_]; [|discriminate].
    destruct (IH s H) as [r ->]. now exists r.
Qed.

(** ** Reference filters *)

Section ReferenceFilters.

Import git.

(** The prefix pattern [p] matches [p] itself and [p] followed by a slash
    and anything, and nothing else. *)
Lemma PrefixFilter_spec (p refname : string) :
  PrefixFilter p refname = true
  <-> refname = p \/ exists rest, refname = p ++ "/" ++ rest.
Proof.
  unfold PrefixFilter. split.
  - intros H. apply andb_true_iff in H as [Hp Hb].
    apply prefix_split in Hp as [r ->].
    destruct r as [|c r].
    + left. apply append_empty_r.
    + right. rewrite get_append_length in Hb. simpl in Hb.
      apply orb_true_iff in Hb as [Hb|Hb].
      * apply Nat.eqb_eq in Hb. rewrite length_append in Hb.
        simpl in Hb. lia.
      * apply Ascii.eqb_eq in Hb. subst c. now exists r.
  - intros [->|[rest ->]]; apply andb_true_iff; split.
    + rewrite <- (append_empty_r p) at 2. apply prefix_append.
    + now rewrite Nat.eqb_refl.
    + apply prefix_append.
    + rewrite get_append_length. simpl. apply orb_true_r.
Qed.

Local Open Scope list_scope.

Lemma decide_spec (newestFirst : list polarizedFilter) (refname : string) :
  (exists before r after,
      newestFirst = before ++ r :: after
      /\ (forall r', In r' before -> filter r' refname = false)
      /\ filter r refname = true
      /\ decide newestFirst refname = includes (polarity r))
  \/ ((forall r, In r newestFirst -> filter r refname = false)
      /\ decide newestFirst refname = false).
Proof.
  induction newestFirst as [|r older IH]; simpl.
  - right. split; [intros r []| reflexivity].
  - destruct (filter r refname) eqn:Hr.
    + left. exists [], r, older.
      split; [reflexivity|]. split; [intros r' []|].
      split; [exact Hr|]. now destruct (polarity r).
    + destruct IH as [(before & r0 & after & -> & Hb & Hm & Hd)|[Hn Hd]].
      * left. exists (r :: before), r0, after.
        split; [reflexivity|]. split; [|now split].
        intros r' [<-|Hin]; auto.
      * right. split; [|exact Hd]. intros r' [<-|Hin]; auto.
Qed.

(** The rule that decides is the last one that matches; without a match
    the name is excluded. *)
Lemma Filter_last_match (rules : IncludeExcludeFilter) (refname : string) :
  (exists i r,
      nth_error rules i = Some r
      /\ filter r refname = true
      /\ (forall j r', i < j -> nth_error rules j = Some r' ->
                       filter r' refname = false)
      /\ Filter rules refname = includes (polarity r))
  \/ ((forall r, In r rules -> filter r refname = false)
      /\ Filter rules refname = false).
Proof.
  unfold Filter.
  destruct (decide_spec (rev rules) refname)
    as [(before & r & after & Hrev & Hb & Hm & Hd)|[Hn Hd]].
  - left. exists (List.length after), r.
    assert (Hrules : rules = rev after ++ r :: rev before).
    { rewrite <- (rev_involutive rules), Hrev, rev_app_distr. simpl.
      now rewrite <- app_assoc. }
    split; [|split; [exact Hm|split; [|exact Hd]]].
    + rewrite Hrules, nth_error_app2; rewrite length_rev; [|lia].
      now rewrite Nat.sub_diag.
    + intros j r' Hj Hnth. apply Hb. apply in_rev.
      rewrite Hrules in Hnth.
      rewrite nth_error_app2 in Hnth; rewrite length_rev in *; [|lia].
      destruct (j - List.length after) as [|k] eqn:Hk; [lia|].
      simpl in Hnth. now apply nth_error_In in Hnth.
  - right. split; [|exact Hd]. intros r Hin. apply Hn. now apply in_rev in Hin.
Qed.

End ReferenceFilters.

(** ** Flag values and the parse *)

Section FlagValues.

Variable w : World.
Local Open Scope list_scope.

(** A user-supplied prefix always installs one rule, after the others. *)
Lemma Set_prefix (pol : git.Polarity) (p : string)
      (rules : git.IncludeExcludeFilter) :
  filterValue_Set w (mkFilterValue pol "" false) p rules
  = (rules ++ [git.mkPolarizedFilter pol (git.PrefixFilter p)], None).
Proof. unfold filterValue_Set. simpl. now destruct pol. Qed.

(** A user-supplied regular expression that does not compile installs
    nothing. *)
Lemma Set_regexp_invalid (fv : filterValue) (s : string) (e : error)
      (rules : git.IncludeExcludeFilter) :
  fv_regexp fv = true -> fv_pattern fv = ""%string ->
  RegexpFilter w s = inl e ->
  filterValue_Set w fv s rules
  = (rules, Some (errorString ("invalid regexp: " ++ quote w s)%string)).
Proof.
  intros Hre Hpat Hbad. unfold filterValue_Set.
  rewrite Hre, Hpat. simpl. now rewrite Hbad.
Qed.

(** [Set] of an option with a built-in pattern whose filter can be
    built, by the three outcomes of reading the argument as a boolean. *)
Lemma Set_fixed (fv : filterValue) (f : git.ReferenceFilter) (s : string)
      (rules : git.IncludeExcludeFilter) :
  fv_pattern fv <> ""%string ->
  (if fv_regexp fv then RegexpFilter w (fv_pattern fv) = inr f
   else f = git.PrefixFilter (fv_pattern fv)) ->
  filterValue_Set w fv s rules
  = match strconv.ParseBool (quote w) s with
    | (true, None) =>
        (rules ++ [git.mkPolarizedFilter (fv_polarity fv) f], None)
    | (false, None) =>
        (rules ++ [git.mkPolarizedFilter (git.Inverted (fv_polarity fv)) f],
         None)
    | (_, Some err) => (rules, Some err)
    end.
Proof.
  intros Hpat Hf. unfold filterValue_Set.
  apply String.eqb_neq in Hpat. rewrite Hpat. cbn [negb].
  destruct (strconv.ParseBool (quote w) s) as [b [err|]]; [now destruct b|].
  destruct (fv_regexp fv); [rewrite Hf | subst f];
    destruct b; cbn [negb]; now destruct (fv_polarity fv).
Qed.

(** Whatever [Set] is called with, the rules already present stay where
    they are, and at most one rule is added behind them. *)
Lemma Set_appends (fv : filterValue) (s : string)
      (rules rules' : git.IncludeExcludeFilter) (err : option error) :
  filterValue_Set w fv s rules = (rules', err) ->
  (err = None /\ exists r, rules' = rules ++ [r])
  \/ (err <> None /\ rules' = rules).
Proof.
  unfold filterValue_Set. intros H.
  destruct (negb (fv_pattern fv =? "")%string).
  - destruct (strconv.ParseBool (quote w) s) as [b [e|]].
    + inversion H. right. now split.
    + destruct (fv_regexp fv).
      * destruct (RegexpFilter w (fv_pattern fv)) as [e|f].
        -- inversion H. right. now split.
        -- destruct (if negb b then _ else _);
             inversion H; left; split; eauto;
             unfold git.IncludeRule, git.ExcludeRule; eauto.
      * destruct (if negb b then _ else _);
          inversion H; left; split; eauto;
          unfold git.IncludeRule, git.ExcludeRule; eauto.
  - destruct (fv_regexp fv).
    + destruct (RegexpFilter w s) as [e|f].
      * inversion H. right. now split.
      * destruct (fv_polarity fv);
          inversion H; left; split; eauto;
          unfold git.IncludeRule, git.ExcludeRule; eauto.
    + destruct (fv_polarity fv);
        inversion H; left; split; eauto;
        unfold git.IncludeRule, git.ExcludeRule; eauto.
Qed.

(** The parse writes nothing unless it is asked for help. *)
Lemma Parse_events (args : list Arg) (v : Vars) (ops : list string) :
  snd (Parse w args v ops) = []
  \/ (snd (Parse w args v ops) = [EvStdout Usage]
      /\ snd (fst (Parse w args v ops)) = Some ErrHelp).
Proof.
  revert v ops. induction args as [|a args IH]; intros v ops; simpl.
  - now left.
  - destruct a as [name value|s]; [|apply IH].
    destruct (lookupFlag w name) as [f|].
    + destruct (match value with Some s => Some s | None => _ end) as [s|];
        [|now left].
      destruct (Value_Set f s v) as [v' [e|]]; [now left | apply IH].
    + destruct (name =? "help")%string; [right | left]; now simpl.
Qed.

Lemma Parse_ok_silent (args : list Arg) (v v' : Vars) (ops ops' : list string) :
  fst (Parse w args v ops) = (v', ops', None) ->
  snd (Parse w args v ops) = [].
Proof.
  intros H. destruct (Parse_events args v ops) as [E|[_ E]]; [exact E|].
  rewrite H in E. discriminate.
Qed.

(** Options are handled from left to right: once a front part of the
    arguments has been parsed, the rest is parsed from where it ended. *)
Lemma Parse_app (pre post : list Arg) (v v1 : Vars) (ops ops1 : list string) :
  fst (Parse w pre v ops) = (v1, ops1, None) ->
  Parse w (pre ++ post) v ops = Parse w post v1 ops1.
Proof.
  revert v ops. induction pre as [|a pre IH]; intros v ops H; simpl in *.
  - now inversion H.
  - destruct a as [name value|s]; [|now apply IH].
    destruct (lookupFlag w name) as [f|].
    + destruct (match value with Some s => Some s | None => _ end) as [s|];
        [|discriminate].
      destruct (Value_Set f s v) as [v' [e|]]; [discriminate | now apply IH].
    + destruct (name =? "help")%string; discriminate.
Qed.

(** No flag value removes or reorders rules: a successful [Set] leaves
    the rule list as it was or adds rules at its end. *)
Lemma Value_Set_extends (f : Flag) (s : string) (v v' : Vars) :
  In f (flags w) -> Value_Set f s v = (v', None) ->
  exists added, filter v' = filter v ++ added.
Proof.
  intros Hin H.
  unfold flags in Hin. simpl in Hin.
  repeat (destruct Hin as [<-|Hin]); try contradiction; simpl in H;
    unfold filterFlag, thresholdFlag, Threshold_Set_flag, NameStyle_Set_flag,
      boolValue_Set, uintValue_Set, stringValue_Set, NegatedBoolValue_Set in H.
  all: try (destruct (filterValue_Set w _ s (filter v)) as [rules err] eqn:E;
            inversion H; subst; simpl;
            apply Set_appends in E as [[_ [r ->]]|[Hne _]];
            [now exists [r] | now elim Hne]).
  all: try (destruct (sizes.thresholdFlagValue_Set _ _ _ s (threshold v));
            inversion H; subst; exists []; now rewrite app_nil_r).
  all: try (destruct (Threshold_Set w s); inversion H; subst;
            exists []; now rewrite app_nil_r).
  all: try (destruct (NameStyle_Set w s); inversion H; subst;
            exists []; now rewrite app_nil_r).
  all: try (destruct (ParseUint w s); inversion H; subst;
            exists []; now rewrite app_nil_r).
  all: try (destruct (strconv.ParseBool (quote w) s); inversion H; subst;
            exists []; now rewrite app_nil_r).
  all: inversion H; subst; exists []; now rewrite app_nil_r.
Qed.

Lemma lookupFlag_In (name : string) (f : Flag) :
  lookupFlag w name = Some f -> In f (flags w).
Proof. intros H. now apply find_some in H. Qed.

(** The rules of the options parsed so far stay in front of the rules of
    the options parsed later. *)
Lemma Parse_extends (args : list Arg) (v v' : Vars) (ops ops' : list string) :
  fst (Parse w args v ops) = (v', ops', None) ->
  exists added, filter v' = filter v ++ added.
Proof.
  revert v ops. induction args as [|a args IH]; intros v ops H; simpl in H.
  - inversion H; subst. exists []. now rewrite app_nil_r.
  - destruct a as [name value|s]; [|now apply IH in H].
    destruct (lookupFlag w name) as [f|] eqn:Hf.
    + destruct (match value with Some s => Some s | None => _ end) as [s|];
        [|discriminate].
      destruct (Value_Set f s v) as [v1 [e|]] eqn:Hset; [discriminate|].
      apply IH in H as [later ->].
      destruct (Value_Set_extends f s v v1 (lookupFlag_In _ _ Hf) Hset)
        as [added ->].
      exists (added ++ later). now rewrite app_assoc.
    + destruct (name =? "help")%string; discriminate.
Qed.

(** A run whose parse fails for another reason than a request for help
    returns the parse error and has done nothing else. *)
Lemma mainImplementation_parse_error (args : list Arg) (v : Vars)
      (ops : list string) (msg : string) :
  fst (Parse w args (initialVars w) []) = (v, ops, Some (errorString msg)) ->
  mainImplementation w args = (Some (errorString msg), []).
Proof.
  intros H. unfold mainImplementation, bind.
  destruct (Parse_events args (initialVars w) []) as [E|[_ E]].
  - rewrite E, H. reflexivity.
  - rewrite H in E. discriminate.
Qed.

(** After a successful parse the run continues with what was parsed. *)
Lemma mainImplementation_parsed (args : list Arg) (v : Vars)
      (ops : list string) :
  fst (Parse w args (initialVars w) []) = (v, ops, None) ->
  mainImplementation w args = afterParse w v ops None.
Proof.
  intros H. unfold mainImplementation, bind.
  rewrite (Parse_ok_silent _ _ _ _ _ H), H. cbn [fst snd app].
  symmetry. apply surjective_pairing.
Qed.

End FlagValues.

(** ** The reference filter of a run *)

Section RunFilter.

Variable w : World.
Local Open Scope list_scope.

(** C1: whatever options were parsed, the filter handed to the scan
    decides a reference name by the last rule of the assembled list that
    matches it (included exactly when that rule is an include rule), and
    excludes a name that no rule matches; the list is assembled in the
    order of the options, the rules of earlier options in front. *)
Theorem last_matching_rule_decides (args : list Arg) (v : Vars)
        (ops : list string) (refname : string) :
  fst (Parse w args (initialVars w) []) = (v, ops, None) ->
  ((exists i r,
       nth_error (filter v) i = Some r
       /\ git.filter r refname = true
       /\ (forall j r', i < j -> nth_error (filter v) j = Some r' ->
                        git.filter r' refname = false)
       /\ git.Filter (filter v) refname = includes (git.polarity r))
   \/ ((forall r, In r (filter v) -> git.filter r refname = false)
       /\ git.Filter (filter v) refname = false))
  /\ (forall pre post v1 ops1,
        args = pre ++ post ->
        fst (Parse w pre (initialVars w) []) = (v1, ops1, None) ->
        exists added, filter v = filter v1 ++ added).
Proof.
  intros H. split; [apply Filter_last_match|].
  intros pre post v1 ops1 -> Hpre.
  rewrite (Parse_app w pre post _ _ _ _ Hpre) in H.
  now apply Parse_extends in H.
Qed.

(** C3: a prefix pattern matches exactly the names equal to it or
    continuing it with a slash; [--include] and [--exclude] install such
    a rule for the string they are given; and with include refs/heads
    followed by exclude refs/heads/archive, refs/heads/main is included
    while refs/heads/archive/old and refs/headsbranch are excluded. *)
Theorem prefix_rule_matches_at_boundary (p refname : string) :
  (git.PrefixFilter p refname = true
   <-> refname = p \/ exists rest, refname = (p ++ "/" ++ rest)%string)
  /\ (forall pol rules,
        filterValue_Set w (mkFilterValue pol "" false) p rules
        = (rules ++ [git.mkPolarizedFilter pol (git.PrefixFilter p)], None))
  /\ (let v := fst (fst (fst (Parse w
                                [Opt "include" (Some "refs/heads");
                                 Opt "exclude" (Some "refs/heads/archive")]
                                (initialVars w) []))) in
      git.Filter (filter v) "refs/heads/main" = true
      /\ git.Filter (filter v) "refs/heads/archive/old" = false
      /\ git.Filter (filter v) "refs/headsbranch" = false).
Proof.
  split; [apply PrefixFilter_spec|].
  split; [intros pol rules; apply Set_prefix|].
  repeat split; reflexivity.
Qed.

(** C4: a string that does not compile as a regular expression makes
    [Set] of a regexp-valued option return the error invalid regexp and
    leave the rules untouched, and a run that meets such an option stops
    in the parse with an error, having opened and scanned nothing. *)
Theorem invalid_regexp_is_rejected (name s : string) (e : error)
        (pre post : list Arg) (v : Vars) (ops : list string) :
  In name ["include-regexp"; "exclude-regexp"]%string ->
  RegexpFilter w s = inl e ->
  fst (Parse w pre (initialVars w) []) = (v, ops, None) ->
  (forall fv rules,
      fv_regexp fv = true -> fv_pattern fv = ""%string ->
      filterValue_Set w fv s rules
      = (rules, Some (errorString ("invalid regexp: " ++ quote w s)%string)))
  /\ mainImplementation w (pre ++ Opt name (Some s) :: post)
     = (Some (errorString
                (invalidArgument w s ("--" ++ name)%string
                   (errorString ("invalid regexp: " ++ quote w s)%string))),
        []).
Proof.
  intros Hname Hbad Hpre. split.
  - intros fv rules Hre Hpat. now apply Set_regexp_invalid with e.
  - apply mainImplementation_parse_error with (set_filter (filter v) v) ops.
    rewrite (Parse_app w pre _ _ _ _ _ Hpre).
    destruct Hname as [<-|[<-|[]]]; simpl;
      unfold filterFlag, filterValue_Set; simpl; rewrite Hbad; reflexivity.
Qed.

(** C10: an option with a built-in pattern reads its argument as a
    boolean.  For each of the ten options, with the polarity and the
    pattern it is registered with: true installs a rule of the option's
    own polarity for that pattern, false a rule of the opposite polarity,
    anything else is the error of [ParseBool] and no rule is installed,
    in [Set] and in the parse; the bare option stands for true; and
    [--branches=false] installs an exclude rule for refs/heads, as
    [--no-branches] does. *)
Theorem fixed_pattern_option_takes_boolean (name s : string) (fv : filterValue)
        (stash : git.ReferenceFilter) (v : Vars) (ops : list string) :
  In (name, fv) builtInOptions ->
  RegexpFilter w "refs/stash" = inr stash ->
  let f := if fv_regexp fv then stash
           else git.PrefixFilter (fv_pattern fv) in
  (exists fl,
      lookupFlag w name = Some fl
      /\ NoOptDefVal fl = "true"%string
      /\ Value_Set fl = filterFlag w fv)
  /\ fv_pattern fv <> ""%string
  /\ (forall rules,
        filterValue_Set w fv s rules
        = match strconv.ParseBool (quote w) s with
          | (true, None) =>
              (rules ++ [git.mkPolarizedFilter (fv_polarity fv) f], None)
          | (false, None) =>
              (rules
                 ++ [git.mkPolarizedFilter (git.Inverted (fv_polarity fv)) f],
               None)
          | (_, Some err) => (rules, Some err)
          end)
  /\ fst (Parse w [Opt name (Some s)] v ops)
     = match strconv.ParseBool (quote w) s with
       | (true, None) =>
           (set_filter
              (filter v ++ [git.mkPolarizedFilter (fv_polarity fv) f]) v,
            ops, None)
       | (false, None) =>
           (set_filter
              (filter v
                 ++ [git.mkPolarizedFilter (git.Inverted (fv_polarity fv)) f])
              v,
            ops, None)
       | (_, Some err) =>
           (set_filter (filter v) v, ops,
            Some (errorString
                    (invalidArgument w s ("--" ++ name)%string err)))
       end
  /\ fst (Parse w [Opt name None] v ops)
     = (set_filter (filter v ++ [git.mkPolarizedFilter (fv_polarity fv) f]) v,
        ops, None)
  /\ fst (Parse w [Opt "branches" (Some "false")] v ops)
     = (set_filter
          (filter v
             ++ [git.mkPolarizedFilter git.Exclude
                                       (git.PrefixFilter "refs/heads")]) v,
        ops, None)
  /\ Parse w [Opt "branches" (Some "false")] v ops
     = Parse w [Opt "no-branches" None] v ops.
Proof.
  intros Hname Hstash f.
  assert (Hset : forall fv' f' s' rules,
             In (name, fv') builtInOptions ->
             f' = (if fv_regexp fv' then stash
                   else git.PrefixFilter (fv_pattern fv')) ->
             filterValue_Set w fv' s' rules
             = match strconv.ParseBool (quote w) s' with
               | (true, None) =>
                   (rules ++ [git.mkPolarizedFilter (fv_polarity fv') f'], None)
               | (false, None) =>
                   (rules
                      ++ [git.mkPolarizedFilter
                            (git.Inverted (fv_polarity fv')) f'],
                    None)
               | (_, Some err) => (rules, Some err)
               end).
  { intros fv' f' s' rules Hin ->. apply Set_fixed.
    - unfold builtInOptions in Hin. simpl in Hin.
      repeat (destruct Hin as [Hin|Hin]; [inversion Hin; simpl; discriminate|]).
      contradiction.
    - unfold builtInOptions in Hin. simpl in Hin.
      repeat (destruct Hin as [Hin|Hin];
              [inversion Hin; simpl; first [exact Hstash | reflexivity]|]).
      contradiction. }
  assert (Hflag : lookupFlag w name
                  = Some (mkFlag name "" "true" (filterFlag w fv))).
  { unfold builtInOptions in Hname. simpl in Hname.
    repeat (destruct Hname as [Hname|Hname]; [inversion Hname; reflexivity|]).
    contradiction. }
  split; [eexists; split; [exact Hflag | split; reflexivity]|].
  split.
  { unfold builtInOptions in Hname. simpl in Hname.
    repeat (destruct Hname as [Hname|Hname];
            [inversion Hname; simpl; discriminate|]).
    contradiction. }
  split; [intros rules; now apply Hset|].
  split.
  { cbn [Parse]. rewrite Hflag. cbn [Value_Set flagName Shorthand Name String.eqb].
    unfold filterFlag. rewrite (Hset fv f s (filter v) Hname eq_refl).
    destruct (strconv.ParseBool (quote w) s) as [[|] [err|]]; reflexivity. }
  split.
  { cbn [Parse]. rewrite Hflag.
    cbn [Value_Set NoOptDefVal String.eqb Ascii.eqb Bool.eqb].
    unfold filterFlag. rewrite (Hset fv f "true"%string (filter v) Hname eq_refl).
    reflexivity. }
  split; reflexivity.
Qed.

End RunFilter.

(** ** Opening the repository *)

Section Opening.

Variable h : git.Host.

Lemma IsShallow_found (gitBin gitDir out : string) :
  git.Output h (git.mkCmd gitBin ["rev-parse"; "--git-path"; "shallow"] gitDir)
  = (out, None) ->
  git.Lstat h (git.smartJoin h gitDir (git.TrimSpace h out)) = None ->
  git.IsShallow h gitBin gitDir = (true, Some shallowError).
Proof.
  intros Hout Hstat. unfold git.IsShallow. now rewrite Hout, Hstat.
Qed.

(** When the command that asks git for the path of the [shallow] file
    fails, [IsShallow] reports the failure but [NewRepository] looks only
    at the boolean, and the repository is opened. *)
Lemma NewRepository_ignores_IsShallow_failure
      (path gitBin gitDir out : string) (f : git.ExecFailure) :
  git.findGitBin h = (gitBin, None) ->
  git.GitDir h gitBin path = (gitDir, None) ->
  git.Output h (git.mkCmd gitBin ["rev-parse"; "--git-path"; "shallow"] gitDir)
  = (out, Some f) ->
  git.NewRepository h path = (Some (git.mkRepository gitDir gitBin), None).
Proof.
  intros Hbin Hdir Hout. unfold git.NewRepository, git.IsShallow.
  now rewrite Hbin, Hdir, Hout.
Qed.

(** Where the refusal works: when git is found, [path] has a git directory,
    git names the path of that directory's [shallow] file and the file
    exists, [NewRepository] returns no repository and the shallow-clone
    error, and a run in the current directory ends there, before any
    scan. *)
Theorem shallow_clone_is_refused (path gitBin gitDir out : string) :
  git.findGitBin h = (gitBin, None) ->
  git.GitDir h gitBin path = (gitDir, None) ->
  git.Output h (git.mkCmd gitBin ["rev-parse"; "--git-path"; "shallow"] gitDir)
  = (out, None) ->
  git.Lstat h (git.smartJoin h gitDir (git.TrimSpace h out)) = None ->
  git.NewRepository h path = (None, Some shallowError)
  /\ (forall w v,
        host w = h -> path = "." ->
        scanAndReport w v
        = (Some (errorString
                   ("couldn't open Git repository: " ++ Error shallowError)),
           [EvNewRepository "."])).
Proof.
  intros Hbin Hdir Hout Hstat.
  assert (Hnew : git.NewRepository h path = (None, Some shallowError)).
  { unfold git.NewRepository.
    now rewrite Hbin, Hdir, (IsShallow_found _ _ _ Hout Hstat). }
  split; [exact Hnew|].
  intros w v Hw ->. unfold scanAndReport. rewrite Hw, Hnew. reflexivity.
Qed.

End Opening.

(** C8 does not hold on the code.  In the current directory of a machine
    whose git directory is .git, where the file .git/shallow exists and git
    exits with an error when asked for the path of the [shallow] file,
    [IsShallow] answers false together with an error, [NewRepository] drops
    that error and returns the repository, and the run scans the shallow
    clone, prints the table and returns nil. *)
Theorem shallow_clone_is_opened_when_git_path_fails :
  git.Lstat Example.machineWithoutGitPath
            (git.smartJoin Example.machineWithoutGitPath ".git" "shallow")
  = None
  /\ git.GitDir Example.machineWithoutGitPath "/usr/bin/git" "."
     = (".git", None)
  /\ git.IsShallow Example.machineWithoutGitPath "/usr/bin/git" ".git"
     = (false,
        Some (errorString
                "could not run 'git rev-parse --git-path shallow': exit status 128"))
  /\ git.NewRepository Example.machineWithoutGitPath "."
     = (Some (git.mkRepository ".git" "/usr/bin/git"), None)
  /\ mainImplementation Example.shallowCloneWithoutGitPath []
     = (None,
        [EvNewRepository "."; EvScan; EvStdout "max-blob-size"; EvClose]).
Proof. repeat split; reflexivity. Qed.

(** ** Configuration errors *)

Section Configuration.

Variable w : World.

(** C2, as the code has it: when the arguments parse, JSON output is
    requested and the JSON version is neither 1 nor 2, the run returns
    the error JSON version must be 1 or 2 and has done nothing: the
    repository is not opened and nothing is scanned. *)
Theorem unacceptable_json_version_is_rejected (args : list Arg) (v : Vars)
        (ops : list string) :
  fst (Parse w args (initialVars w) []) = (v, ops, None) ->
  jsonOutput v = true ->
  jsonVersion v <> 1%N -> jsonVersion v <> 2%N ->
  mainImplementation w args
  = (Some (errorString "JSON version must be 1 or 2"), []).
Proof.
  intros Hparse Hjson H1 H2.
  rewrite (mainImplementation_parsed w _ _ _ Hparse).
  unfold afterParse. rewrite Hjson.
  apply N.eqb_neq in H1, H2. now rewrite H1, H2.
Qed.

End Configuration.

(** C2, as stated, fails: with [--json-version=3] and no [--json] the
    arguments parse, the version is neither 1 nor 2, and yet the run opens
    the repository, scans it, prints the table and returns no error. *)
Lemma json_version_unchecked_without_json :
  (fst (Parse Example.fullClone [Opt "json-version" (Some "3")]
              (initialVars Example.fullClone) [])
   = (set_jsonVersion 3 (initialVars Example.fullClone), [], None)
   /\ mainImplementation Example.fullClone [Opt "json-version" (Some "3")]
      = (None,
         [EvNewRepository "."; EvScan; EvStdout "max-blob-size"; EvClose]))
  /\ ~ (forall w args v ops,
          fst (Parse w args (initialVars w) []) = (v, ops, None) ->
          jsonVersion v <> 1%N -> jsonVersion v <> 2%N ->
          mainImplementation w args
          = (Some (errorString "JSON version must be 1 or 2"), [])).
Proof.
  assert (Hparse :
    fst (Parse Example.fullClone [Opt "json-version" (Some "3")]
               (initialVars Example.fullClone) [])
    = (set_jsonVersion 3 (initialVars Example.fullClone), [], None))
    by reflexivity.
  split; [split; [exact Hparse | reflexivity]|].
  intros Hall.
  specialize (Hall Example.fullClone [Opt "json-version" (Some "3")] _ _ Hparse).
  cbn in Hall. assert (Hrun := Hall ltac:(discriminate) ltac:(discriminate)).
  discriminate Hrun.
Qed.

(** ** Showing the references *)

Section ShowRefs.

Variable w : World.
Local Open Scope list_scope.

Lemma withoutStderr_app (a b : list Event) :
  withoutStderr (a ++ b) = withoutStderr a ++ withoutStderr b.
Proof. apply filter_app. Qed.

(** The wrapper answers what the wrapped filter answers. *)
Lemma showRefsFilter_answer (oldRefFilter : string -> IO bool)
      (refname : string) :
  fst (showRefsFilter oldRefFilter refname) = fst (oldRefFilter refname).
Proof. reflexivity. Qed.

(** What it adds is one line on stderr. *)
Lemma showRefsFilter_events (oldRefFilter : string -> IO bool)
      (refname : string) :
  withoutStderr (snd (showRefsFilter oldRefFilter refname))
  = withoutStderr (snd (oldRefFilter refname)).
Proof.
  unfold showRefsFilter, bind. cbn [fst snd].
  rewrite withoutStderr_app.
  destruct (fst (oldRefFilter refname)); cbn; now rewrite app_nil_r.
Qed.

(** The scan returns the same aggregate and the same error with and
    without the wrapper. *)
Lemma scan_with_showRefs (repo : option git.Repository)
      (oldRefFilter : string -> IO bool) (ns : sizes.NameStyle) (p : bool) :
  fst (ScanRepositoryUsingGraph w repo (showRefsFilter oldRefFilter) ns p)
  = fst (ScanRepositoryUsingGraph w repo oldRefFilter ns p)
  /\ withoutStderr
       (snd (ScanRepositoryUsingGraph w repo (showRefsFilter oldRefFilter) ns p))
     = withoutStderr
         (snd (ScanRepositoryUsingGraph w repo oldRefFilter ns p)).
Proof.
  unfold ScanRepositoryUsingGraph. cbn [fst snd].
  change (fun refname => fst (showRefsFilter oldRefFilter refname))
    with (fun refname => fst (oldRefFilter refname)).
  split; [reflexivity|].
  cbn [withoutStderr List.filter isStderr negb]. f_equal.
  induction (fst (Scan w repo (fun refname => fst (oldRefFilter refname)) ns p))
    as [|refname names IH]; [reflexivity|].
  cbn [flat_map].
  change (List.filter (fun e => negb (isStderr e))) with withoutStderr in *.
  now rewrite !withoutStderr_app, showRefsFilter_events, IH.
Qed.

Lemma writeResult_showRefs (b : bool) (v : Vars) (hs : HistorySize w) :
  writeResult w (set_showRefs b v) hs = writeResult w v hs.
Proof. reflexivity. Qed.

Lemma scanAndReport_showRefs (v : Vars) :
  fst (scanAndReport w (set_showRefs true v))
  = fst (scanAndReport w (set_showRefs false v))
  /\ withoutStderr (snd (scanAndReport w (set_showRefs true v)))
     = withoutStderr (snd (scanAndReport w (set_showRefs false v))).
Proof.
  unfold scanAndReport.
  destruct (git.NewRepository (host w) ".") as [repo [e|]]; [now split|].
  cbn [showRefs set_showRefs filter nameStyle progress].
  set (refFilter := fun refname : string => ret (git.Filter (filter v) refname)).
  destruct (scan_with_showRefs repo refFilter (nameStyle v) (progress v))
    as [Hr He].
  unfold bind, defer, emit, ret. cbn [fst snd].
  rewrite Hr, !writeResult_showRefs. split; [reflexivity|].
  rewrite !withoutStderr_app, He. reflexivity.
Qed.

Lemma afterParse_showRefs (v : Vars) (ops : list string) :
  fst (afterParse w (set_showRefs true v) ops None)
  = fst (afterParse w (set_showRefs false v) ops None)
  /\ withoutStderr (snd (afterParse w (set_showRefs true v) ops None))
     = withoutStderr (snd (afterParse w (set_showRefs false v) ops None)).
Proof.
  destruct (scanAndReport_showRefs v) as [Hr He].
  unfold afterParse, withCPUProfile.
  cbn [jsonOutput jsonVersion cpuprofile version set_showRefs].
  destruct (jsonOutput v && _); [now split|].
  destruct (version v); [now split|].
  destruct (negb (Datatypes.length ops =? 0)%nat); [now split|].
  destruct (negb (cpuprofile v =? "")%string); [|now split].
  destruct (Create w (cpuprofile v)); [now split|].
  unfold bind, defer, emit. cbn [fst snd].
  split; [exact Hr|]. now rewrite !withoutStderr_app, He.
Qed.

(** C9: the filter installed by [--show-refs] returns the boolean of the
    filter it wraps for every reference name; the scan therefore returns
    the same aggregate, and the run returns the same result and does the
    same things, stderr apart, whether or not [--show-refs] is set. *)
Theorem show_refs_changes_no_decision (oldRefFilter : string -> IO bool)
        (refname : string) (v : Vars) (ops : list string) :
  fst (showRefsFilter oldRefFilter refname) = fst (oldRefFilter refname)
  /\ (forall repo ns p,
        fst (ScanRepositoryUsingGraph w repo (showRefsFilter oldRefFilter) ns p)
        = fst (ScanRepositoryUsingGraph w repo oldRefFilter ns p))
  /\ fst (afterParse w (set_showRefs true v) ops None)
     = fst (afterParse w (set_showRefs false v) ops None)
  /\ withoutStderr (snd (afterParse w (set_showRefs true v) ops None))
     = withoutStderr (snd (afterParse w (set_showRefs false v) ops None)).
Proof.
  split; [reflexivity|].
  split; [intros repo ns p; apply scan_with_showRefs|].
  apply afterParse_showRefs.
Qed.

End ShowRefs.

(** ** Errors *)

Section Errors.

Variable w : World.
Local Open Scope list_scope.

Lemma Parse_presents_no_error (args : list Arg) (v : Vars) (ops : list string) :
  Forall presentsNoError (snd (Parse w args v ops)).
Proof.
  destruct (Parse_events w args v ops) as [->|[-> _]]; repeat constructor.
Qed.

Lemma writeResult_presents_no_error (v : Vars) (hs : HistorySize w) :
  Forall presentsNoError (snd (writeResult w v hs)).
Proof.
  unfold writeResult.
  destruct (jsonOutput v); [|repeat constructor].
  destruct (jsonVersion v =? 1)%N.
  - destruct (MarshalIndent w hs); repeat constructor.
  - destruct (jsonVersion v =? 2)%N; [|constructor].
    destruct (JSON w hs (threshold v) (nameStyle v)); repeat constructor.
Qed.

Lemma showRefsFilter_presents_no_error (f : string -> bool) (refname : string) :
  Forall presentsNoError
         (snd (showRefsFilter (fun r => ret (f r)) refname)).
Proof.
  unfold showRefsFilter, bind, ret, emit. cbn [fst snd app].
  destruct (f refname);
    (constructor; [right; exists refname; auto | constructor]).
Qed.

Lemma flat_map_Forall {A B} (P : B -> Prop) (g : A -> list B) (l : list A) :
  (forall a, Forall P (g a)) -> Forall P (flat_map g l).
Proof.
  intros Hg. induction l as [|a l IH]; simpl; [constructor|].
  apply Forall_app. split; [apply Hg | exact IH].
Qed.

Lemma scanAndReport_presents_no_error (v : Vars) :
  Forall presentsNoError (snd (scanAndReport w v)).
Proof.
  unfold scanAndReport.
  destruct (git.NewRepository (host w) ".") as [repo [e|]];
    [repeat constructor|].
  unfold bind, defer, emit. cbn [fst snd].
  repeat (apply Forall_app; split); try (repeat constructor; fail).
  - destruct (showRefs v); cbn; [|constructor].
    constructor; [now left | constructor].
  - unfold ScanRepositoryUsingGraph. cbn [snd]. constructor; [exact I|].
    apply flat_map_Forall. intros refname.
    destruct (showRefs v); cbn [fst snd ret app];
      [apply showRefsFilter_presents_no_error | constructor].
  - destruct (snd (fst _)); [constructor | apply writeResult_presents_no_error].
Qed.

Lemma afterParse_presents_no_error (v : Vars) (ops : list string)
      (err : option error) :
  Forall presentsNoError (snd (afterParse w v ops err)).
Proof.
  unfold afterParse.
  destruct err as [e|]; [destruct (isErrHelp e); constructor|].
  destruct (jsonOutput v && _); [constructor|].
  assert (Hbody : Forall presentsNoError
            (snd (if version v
                  then bind (emit (EvStdout
                               (if negb (ReleaseVersion w =? "")%string
                                then ("git-sizer release " ++ ReleaseVersion w ++ nl)%string
                                else ("git-sizer build " ++ BuildVersion w ++ nl)%string)))
                            (fun _ => ret None)
                  else if negb (Datatypes.length ops =? 0)%nat
                       then ret (Some (errors_New "excess arguments"))
                       else scanAndReport w v))).
  { destruct (version v); [repeat constructor|].
    destruct (negb _); [constructor | apply scanAndReport_presents_no_error]. }
  unfold withCPUProfile.
  destruct (negb (cpuprofile v =? "")%string); [|exact Hbody].
  destruct (Create w (cpuprofile v)); [repeat constructor|].
  unfold bind, defer, emit. cbn [fst snd].
  repeat (apply Forall_app; split); try (repeat constructor; fail).
  exact Hbody.
Qed.

Lemma mainImplementation_presents_no_error (args : list Arg) :
  Forall presentsNoError (snd (mainImplementation w args)).
Proof.
  unfold mainImplementation, bind. cbn [snd].
  apply Forall_app. split;
    [apply Parse_presents_no_error | apply afterParse_presents_no_error].
Qed.

(** What [scanAndReport] returns, by the outcome of opening and of
    scanning. *)
Lemma scanAndReport_result (v : Vars) :
  fst (scanAndReport w v)
  = match git.NewRepository (host w) "." with
    | (_, Some e) =>
        Some (errorString ("couldn't open Git repository: " ++ Error e)%string)
    | (repo, None) =>
        match Scan w repo (git.Filter (filter v)) (nameStyle v) (progress v)
        with
        | (_, (_, Some e)) =>
            Some (errorString ("error scanning repository: " ++ Error e)%string)
        | (_, (hs, None)) => fst (writeResult w v hs)
        end
    end.
Proof.
  unfold scanAndReport.
  destruct (git.NewRepository (host w) ".") as [repo [e|]]; [reflexivity|].
  unfold bind, defer, emit, ScanRepositoryUsingGraph. cbn [fst snd].
  assert (Hf : forall b : bool,
             (fun refname : string =>
                fst (fst (if b
                          then (showRefsFilter
                                  (fun r => ret (git.Filter (filter v) r)),
                                [EvStderr
                                   ("References (included references marked with '+'):"
                                      ++ nl)%string] ++ [])
                          else ret (fun r => ret (git.Filter (filter v) r)))
                       refname))
             = git.Filter (filter v)).
  { now intros []. }
  rewrite Hf.
  destruct (Scan w repo (git.Filter (filter v)) (nameStyle v) (progress v))
    as [names [hs [e|]]]; reflexivity.
Qed.

Lemma afterParse_reaches_scan (v : Vars) :
  (jsonOutput v && negb ((jsonVersion v =? 1)%N || (jsonVersion v =? 2)%N))
  = false ->
  cpuprofile v = ""%string \/ Create w (cpuprofile v) = None ->
  version v = false ->
  fst (afterParse w v [] None) = fst (scanAndReport w v).
Proof.
  intros Hjson Hprof Hver. unfold afterParse, withCPUProfile.
  rewrite Hjson, Hver. cbn [Datatypes.length Nat.eqb negb].
  destruct (negb (cpuprofile v =? "")%string) eqn:Hcpu; [|reflexivity].
  destruct Hprof as [Hprof|Hprof].
  - rewrite Hprof in Hcpu. discriminate.
  - now rewrite Hprof.
Qed.

(** C7: [mainImplementation] neither ends the process nor writes an
    error to stderr, it returns it: a parse error as it is, a failure to
    open the repository, a scan error and a JSON encoding failure each
    under its own heading, and nil when nothing fails; [main] adds to
    what [mainImplementation] did the line error: message on stderr and
    the exit status 1 exactly when an error came back. *)
Theorem errors_are_returned_to_main (args : list Arg) :
  Forall presentsNoError (snd (mainImplementation w args))
  /\ snd (main w args)
     = snd (mainImplementation w args)
         ++ match fst (mainImplementation w args) with
            | Some e =>
                [EvStderr ("error: " ++ Error e ++ nl)%string; EvExit 1]
            | None => []
            end
  /\ (forall v ops e,
        fst (Parse w args (initialVars w) []) = (v, ops, Some e) ->
        e <> ErrHelp ->
        fst (mainImplementation w args) = Some e)
  /\ (forall v,
        reachesScan w args v ->
        fst (mainImplementation w args)
        = match git.NewRepository (host w) "." with
          | (_, Some e) =>
              Some (errorString
                      ("couldn't open Git repository: " ++ Error e)%string)
          | (repo, None) =>
              match Scan w repo (git.Filter (filter v)) (nameStyle v)
                         (progress v)
              with
              | (_, (_, Some e)) =>
                  Some (errorString
                          ("error scanning repository: " ++ Error e)%string)
              | (_, (hs, None)) =>
                  if jsonOutput v then
                    match (if (jsonVersion v =? 1)%N
                           then MarshalIndent w hs
                           else JSON w hs (threshold v) (nameStyle v))
                    with
                    | inl e =>
                        Some (errorString
                                ("could not convert "
                                   ++ formatHistorySize w hs
                                   ++ " to json: " ++ Error e)%string)
                    | inr _ => None
                    end
                  else None
              end
          end).
Proof.
  split; [apply mainImplementation_presents_no_error|].
  split.
  { unfold main, bind. cbn [snd].
    now destruct (fst (mainImplementation w args)). }
  split.
  { intros v ops e Hparse He. destruct e as [|msg]; [now elim He|].
    now rewrite (mainImplementation_parse_error w _ _ _ _ Hparse). }
  intros v (Hparse & Hjson & Hprof & Hver).
  rewrite (mainImplementation_parsed w _ _ _ Hparse).
  rewrite (afterParse_reaches_scan v Hjson Hprof Hver), scanAndReport_result.
  destruct (git.NewRepository (host w) ".") as [repo [e|]]; [reflexivity|].
  destruct (Scan w repo (git.Filter (filter v)) (nameStyle v) (progress v))
    as [names [hs [e|]]]; [reflexivity|].
  unfold writeResult.
  destruct (jsonOutput v); [|reflexivity].
  destruct (jsonVersion v =? 1)%N eqn:H1.
  - now destruct (MarshalIndent w hs).
  - destruct (jsonVersion v =? 2)%N eqn:H2.
    + now destruct (JSON w hs (threshold v) (nameStyle v)).
    + cbn in Hjson. discriminate.
Qed.

End Errors.

(** ** Severity and the threshold *)

Section Severity.

Import sizes.
Local Open Scope N_scope.

Lemma floorLog_mono_num (fuel : nat) (b num1 num2 den : N) :
  num1 <= num2 -> floorLog fuel b num1 den <= floorLog fuel b num2 den.
Proof.
  intros Hle. revert den.
  induction fuel as [|fuel IH]; intros den; cbn [floorLog].
  - lia.
  - destruct (N.leb_spec (den * b) num1) as [H1|H1].
    + destruct (N.leb_spec (den * b) num2) as [H2|H2]; [|lia].
      specialize (IH (den * b)). lia.
    + destruct (den * b <=? num2); lia.
Qed.

Lemma floorLog_mono_fuel (fuel1 fuel2 : nat) (b num den : N) :
  (fuel1 <= fuel2)%nat ->
  floorLog fuel1 b num den <= floorLog fuel2 b num den.
Proof.
  revert fuel2 den. induction fuel1 as [|fuel1 IH]; intros fuel2 den Hle.
  - cbn [floorLog]. lia.
  - destruct fuel2 as [|fuel2]; [lia|]. cbn [floorLog].
    destruct (den * b <=? num); [|lia].
    specialize (IH fuel2 (den * b)). lia.
Qed.

Lemma size_mono (v1 v2 : N) :
  v1 <= v2 -> (N.to_nat (N.size v1) <= N.to_nat (N.size v2))%nat.
Proof.
  intros Hle. destruct (N.eq_dec v1 0) as [->|H1]; [simpl; lia|].
  assert (H2 : v2 <> 0) by lia.
  rewrite !N.size_log2 by assumption.
  pose proof (N.log2_le_mono _ _ Hle). lia.
Qed.

(** With enough fuel, [floorLog] is the exponent [k] with
    [den * b^k <= num < den * b^(k+1)], and 0 below [den]. *)
Lemma floorLog_spec (fuel : nat) (b num den : N) :
  2 <= b -> 0 < den -> num < den * 2 ^ N.of_nat fuel ->
  (num < den -> floorLog fuel b num den = 0)
  /\ (den <= num ->
      den * b ^ floorLog fuel b num den <= num
      /\ num < den * b ^ (floorLog fuel b num den + 1)).
Proof.
  intros Hb. revert den. induction fuel as [|fuel IH]; intros den Hden Hfuel.
  - simpl in *. split; [reflexivity|lia].
  - cbn [floorLog].
    destruct (N.leb_spec (den * b) num) as [Hstep|Hstep].
    + assert (Hfuel' : num < den * b * 2 ^ N.of_nat fuel).
      { rewrite Nat2N.inj_succ, N.pow_succ_r' in Hfuel.
        eapply N.lt_le_trans; [exact Hfuel|].
        rewrite <- N.mul_assoc. apply N.mul_le_mono_l.
        apply N.mul_le_mono_r. exact Hb. }
      destruct (IH (den * b) ltac:(nia) Hfuel') as [_ IH2].
      split; [nia|]. intros _. specialize (IH2 Hstep).
      rewrite (N.add_comm 1), !N.pow_add_r, !N.pow_1_r in *.
      split; nia.
    + split; [reflexivity|]. intros Hle.
      rewrite N.pow_0_r, N.add_0_l, N.pow_1_r. lia.
Qed.

(** C6: for a fixed metric the severity does not decrease when the value
    grows; and for a base of at least 2 and a positive reasonable value
    it is the floor of the logarithm of value / reasonable, that is the
    [k] with [reasonable * base^k <= value < reasonable * base^(k+1)],
    and 0 for a value below the reasonable one. *)
Theorem severity_is_monotone (c : Concern) (m : string) (v1 v2 : N) :
  v1 <= v2 ->
  Severity c m v1 <= Severity c m v2
  /\ (2 <= base c -> 0 < reasonable c m ->
      (v1 < reasonable c m -> Severity c m v1 = 0)
      /\ (reasonable c m <= v1 ->
          reasonable c m * base c ^ Severity c m v1 <= v1
          /\ v1 < reasonable c m * base c ^ (Severity c m v1 + 1))).
Proof.
  intros Hle. unfold Severity. split.
  - eapply N.le_trans.
    + apply floorLog_mono_num. exact Hle.
    + apply floorLog_mono_fuel, size_mono, Hle.
  - intros Hb Hr. apply floorLog_spec; try assumption.
    rewrite N2Nat.id. pose proof (N.size_gt v1). nia.
Qed.

End Severity.

Section Threshold.

Variable w : World.
Local Open Scope N_scope.

Lemma report_In (c : sizes.Concern) (t : sizes.Threshold)
      (rows : list sizes.Row) (r : sizes.Row) :
  In r (sizes.report c t rows)
  <-> In r rows /\ t <= sizes.Severity c (sizes.metric r) (sizes.value r).
Proof.
  unfold sizes.report, sizes.emitted.
  rewrite filter_In, N.leb_le. reflexivity.
Qed.

Lemma report_everything (c : sizes.Concern) (rows : list sizes.Row) :
  sizes.report c 0 rows = rows.
Proof.
  unfold sizes.report. induction rows as [|r rows IH]; [reflexivity|].
  cbn [List.filter]. unfold sizes.emitted at 1.
  destruct (N.leb_spec 0 (sizes.Severity c (sizes.metric r) (sizes.value r)));
    [now rewrite IH | lia].
Qed.

(** C5: the threshold is a natural number that starts at 1; [--verbose]
    makes it 0 and [--critical] makes it 30; the value the parse ends
    with is the one the table is rendered with; a row is in the report
    exactly when it is a row of the aggregate whose severity is at least
    the threshold, so that the threshold 0 keeps every row. *)
Theorem threshold_gates_the_report (v : Vars) (ops : list string)
        (hs : HistorySize w) (c : sizes.Concern) (t : sizes.Threshold)
        (rows : list sizes.Row) (r : sizes.Row) :
  (0 <= threshold v /\ threshold (initialVars w) = 1)
  /\ fst (Parse w [Opt "verbose" None] v ops) = (set_threshold 0 v, ops, None)
  /\ fst (Parse w [Opt "critical" None] v ops) = (set_threshold 30 v, ops, None)
  /\ (jsonOutput v = false ->
      writeResult w v hs
      = (None, [EvStdout (TableString w hs (threshold v) (nameStyle v))]))
  /\ (In r (sizes.report c t rows)
      <-> In r rows /\ t <= sizes.Severity c (sizes.metric r) (sizes.value r))
  /\ sizes.report c 0 rows = rows.
Proof.
  split; [split; [lia | reflexivity]|].
  split; [reflexivity|].
  split; [reflexivity|].
  split; [intros Hjson; unfold writeResult; now rewrite Hjson|].
  split; [apply report_In | apply report_everything].
Qed.

End Threshold.

(** ** The theorems at work in the example world *)

Lemma last_matching_rule_decides_witness :
  fst (Parse Example.fullClone
             [Opt "branches" None; Opt "exclude" (Some "refs/heads/archive")]
             (initialVars Example.fullClone) [])
  = (set_filter Example.branchesButArchive (initialVars Example.fullClone), [], None)
  /\ (((exists i r,
          nth_error Example.branchesButArchive i = Some r
          /\ git.filter r "refs/heads/archive/old" = true
          /\ (forall j r', i < j -> nth_error Example.branchesButArchive j = Some r' ->
                           git.filter r' "refs/heads/archive/old" = false)
          /\ git.Filter Example.branchesButArchive "refs/heads/archive/old"
             = includes (git.polarity r))
       \/ ((forall r, In r Example.branchesButArchive ->
                      git.filter r "refs/heads/archive/old" = false)
           /\ git.Filter Example.branchesButArchive "refs/heads/archive/old" = false))
      /\ (forall pre post v1 ops1,
            [Opt "branches" None; Opt "exclude" (Some "refs/heads/archive")]
            = (pre ++ post)%list ->
            fst (Parse Example.fullClone pre (initialVars Example.fullClone) [])
            = (v1, ops1, None) ->
            exists added, Example.branchesButArchive = (filter v1 ++ added)%list)).
Proof.
  split; [reflexivity|].
  apply (last_matching_rule_decides Example.fullClone
           [Opt "branches" None; Opt "exclude" (Some "refs/heads/archive")]
           (set_filter Example.branchesButArchive (initialVars Example.fullClone)) []
           "refs/heads/archive/old").
  reflexivity.
Defined.

Lemma unacceptable_json_version_is_rejected_witness :
  fst (Parse Example.fullClone
             [Opt "json" None; Opt "json-version" (Some "3")]
             (initialVars Example.fullClone) [])
  = (set_jsonVersion 3 (set_jsonOutput true (initialVars Example.fullClone)),
     [], None)
  /\ mainImplementation Example.fullClone
                        [Opt "json" None; Opt "json-version" (Some "3")]
     = (Some (errorString "JSON version must be 1 or 2"), []).
Proof.
  split; [reflexivity|].
  apply (unacceptable_json_version_is_rejected Example.fullClone
           [Opt "json" None; Opt "json-version" (Some "3")]
           (set_jsonVersion 3 (set_jsonOutput true (initialVars Example.fullClone)))
           []).
  - reflexivity.
  - reflexivity.
  - discriminate.
  - discriminate.
Defined.

Lemma invalid_regexp_is_rejected_witness :
  (In "include-regexp" ["include-regexp"; "exclude-regexp"]
   /\ RegexpFilter Example.fullClone "("
      = inl (errorString "error parsing regexp")
   /\ fst (Parse Example.fullClone [Opt "branches" None]
                 (initialVars Example.fullClone) [])
      = (set_filter
           [git.mkPolarizedFilter git.Include (git.PrefixFilter "refs/heads")]
           (initialVars Example.fullClone),
         [], None))
  /\ ((forall fv rules,
         fv_regexp fv = true -> fv_pattern fv = "" ->
         filterValue_Set Example.fullClone fv "(" rules
         = (rules,
            Some (errorString ("invalid regexp: " ++ quote Example.fullClone "("))))
      /\ mainImplementation Example.fullClone
           ([Opt "branches" None]
              ++ Opt "include-regexp" (Some "(") :: [Opt "json" None])%list
         = (Some (errorString
                    (invalidArgument Example.fullClone "("
                       ("--" ++ "include-regexp")
                       (errorString
                          ("invalid regexp: " ++ quote Example.fullClone "(")))),
            [])).
Proof.
  split.
  - split; [now left|]. split; reflexivity.
  - apply (invalid_regexp_is_rejected Example.fullClone "include-regexp" "("
             (errorString "error parsing regexp") [Opt "branches" None]
             [Opt "json" None]
             (set_filter
                [git.mkPolarizedFilter git.Include
                                       (git.PrefixFilter "refs/heads")]
                (initialVars Example.fullClone))
             []).
    + now left.
    + reflexivity.
    + reflexivity.
Defined.

Lemma severity_is_monotone_witness :
  (100 <= 1000)%N
  /\ ((sizes.Severity Example.concern "max-blob-size" 100
       <= sizes.Severity Example.concern "max-blob-size" 1000)%N
      /\ ((2 <= sizes.base Example.concern)%N ->
          (0 < sizes.reasonable Example.concern "max-blob-size")%N ->
          ((100 < sizes.reasonable Example.concern "max-blob-size")%N ->
           sizes.Severity Example.concern "max-blob-size" 100 = 0%N)
          /\ ((sizes.reasonable Example.concern "max-blob-size" <= 100)%N ->
              (sizes.reasonable Example.concern "max-blob-size"
               * sizes.base Example.concern
                 ^ sizes.Severity Example.concern "max-blob-size" 100
               <= 100)%N
              /\ (100 < sizes.reasonable Example.concern "max-blob-size"
                        * sizes.base Example.concern
                          ^ (sizes.Severity Example.concern "max-blob-size" 100
                             + 1))%N))).
Proof.
  split; [lia|].
  apply (severity_is_monotone Example.concern "max-blob-size" 100 1000). lia.
Defined.

Lemma shallow_clone_is_refused_witness :
  (git.findGitBin (host Example.shallowClone) = ("/usr/bin/git", None)
   /\ git.GitDir (host Example.shallowClone) "/usr/bin/git" "." = (".git", None)
   /\ git.Output (host Example.shallowClone)
                 (git.mkCmd "/usr/bin/git"
                            ["rev-parse"; "--git-path"; "shallow"] ".git")
      = ("shallow" ++ nl, None)
   /\ git.Lstat (host Example.shallowClone)
                (git.smartJoin (host Example.shallowClone) ".git"
                   (git.TrimSpace (host Example.shallowClone) ("shallow" ++ nl)))
      = None)
  /\ (git.NewRepository (host Example.shallowClone) "."
      = (None, Some shallowError)
      /\ (forall w v,
            host w = host Example.shallowClone -> "." = "." ->
            scanAndReport w v
            = (Some (errorString
                       ("couldn't open Git repository: " ++ Error shallowError)),
               [EvNewRepository "."]))).
Proof.
  split.
  - repeat split; reflexivity.
  - apply (shallow_clone_is_refused (host Example.shallowClone) "."
             "/usr/bin/git" ".git" ("shallow" ++ nl)); reflexivity.
Defined.

Lemma fixed_pattern_option_takes_boolean_witness :
  (In ("no-stash", mkFilterValue git.Exclude "refs/stash" true) builtInOptions
   /\ RegexpFilter Example.fullClone "refs/stash"
      = inr (String.eqb "refs/stash"))
  /\ (let f := if fv_regexp (mkFilterValue git.Exclude "refs/stash" true)
               then String.eqb "refs/stash"
               else git.PrefixFilter
                      (fv_pattern (mkFilterValue git.Exclude "refs/stash" true))
      in
      (exists fl,
          lookupFlag Example.fullClone "no-stash" = Some fl
          /\ NoOptDefVal fl = "true"
          /\ Value_Set fl
             = filterFlag Example.fullClone
                          (mkFilterValue git.Exclude "refs/stash" true))
      /\ fv_pattern (mkFilterValue git.Exclude "refs/stash" true) <> ""
      /\ (forall rules,
            filterValue_Set Example.fullClone
                            (mkFilterValue git.Exclude "refs/stash" true)
                            "0" rules
            = match strconv.ParseBool (quote Example.fullClone) "0" with
              | (true, None) =>
                  ((rules
                      ++ [git.mkPolarizedFilter
                            (fv_polarity
                               (mkFilterValue git.Exclude "refs/stash" true))
                            f])%list,
                   None)
              | (false, None) =>
                  ((rules
                      ++ [git.mkPolarizedFilter
                            (git.Inverted
                               (fv_polarity
                                  (mkFilterValue git.Exclude "refs/stash" true)))
                            f])%list,
                   None)
              | (_, Some err) => (rules, Some err)
              end)
      /\ fst (Parse Example.fullClone [Opt "no-stash" (Some "0")]
                    (initialVars Example.fullClone) [])
         = match strconv.ParseBool (quote Example.fullClone) "0" with
           | (true, None) =>
               (set_filter
                  (filter (initialVars Example.fullClone)
                     ++ [git.mkPolarizedFilter
                           (fv_polarity
                              (mkFilterValue git.Exclude "refs/stash" true))
                           f])%list
                  (initialVars Example.fullClone),
                [], None)
           | (false, None) =>
               (set_filter
                  (filter (initialVars Example.fullClone)
                     ++ [git.mkPolarizedFilter
                           (git.Inverted
                              (fv_polarity
                                 (mkFilterValue git.Exclude "refs/stash" true)))
                           f])%list
                  (initialVars Example.fullClone),
                [], None)
           | (_, Some err) =>
               (set_filter (filter (initialVars Example.fullClone))
                           (initialVars Example.fullClone),
                [],
                Some (errorString
                        (invalidArgument Example.fullClone "0"
                                         ("--" ++ "no-stash") err)))
           end
      /\ fst (Parse Example.fullClone [Opt "no-stash" None]
                    (initialVars Example.fullClone) [])
         = (set_filter
              (filter (initialVars Example.fullClone)
                 ++ [git.mkPolarizedFilter
                       (fv_polarity
                          (mkFilterValue git.Exclude "refs/stash" true))
                       f])%list
              (initialVars Example.fullClone),
            [], None)
      /\ fst (Parse Example.fullClone [Opt "branches" (Some "false")]
                    (initialVars Example.fullClone) [])
         = (set_filter
              (filter (initialVars Example.fullClone)
                 ++ [git.mkPolarizedFilter git.Exclude
                                           (git.PrefixFilter "refs/heads")])%list
              (initialVars Example.fullClone),
            [], None)
      /\ Parse Example.fullClone [Opt "branches" (Some "false")]
               (initialVars Example.fullClone) []
         = Parse Example.fullClone [Opt "no-branches" None]
                 (initialVars Example.fullClone) []).
Proof.
  split.
  - split; [|reflexivity]. unfold builtInOptions. simpl. tauto.
  - apply (fixed_pattern_option_takes_boolean Example.fullClone "no-stash" "0"
             (mkFilterValue git.Exclude "refs/stash" true)
             (String.eqb "refs/stash") (initialVars Example.fullClone) []).
    + unfold builtInOptions. simpl. tauto.
    + reflexivity.
Defined.

(** * Further properties *)

(** ** Package git *)

Section OpeningFurther.

Variable h : git.Host.

(** [IsShallow] answers true exactly when git named a path for the
    [shallow] file and that path exists; it then always carries the
    shallow-clone error, and it never answers true without an error. *)
Theorem IsShallow_true_iff (gitBin gitDir : string) :
  (fst (git.IsShallow h gitBin gitDir) = true
   <-> exists out,
        git.Output h (git.mkCmd gitBin ["rev-parse"; "--git-path"; "shallow"]
                                gitDir) = (out, None)
        /\ git.Lstat h (git.smartJoin h gitDir (git.TrimSpace h out)) = None)
  /\ (fst (git.IsShallow h gitBin gitDir) = true ->
      snd (git.IsShallow h gitBin gitDir) = Some shallowError)
  /\ (snd (git.IsShallow h gitBin gitDir) = None ->
      fst (git.IsShallow h gitBin gitDir) = false).
Proof.
  unfold git.IsShallow.
  destruct (git.Output h _) as [out [f|]] eqn:Hout; cbn [fst snd].
  - repeat split; try discriminate. intros [out' [Ho _]]. discriminate.
  - destruct (git.Lstat h _) as [e|] eqn:Hstat; cbn [fst snd].
    + repeat split; try discriminate.
      intros [out' [Ho Hl]]. inversion Ho; subst. rewrite Hstat in Hl.
      discriminate.
    + repeat split; try discriminate. intros _. now exists out.
Qed.

(** [GitDir] returns the empty string with every error; without an error
    it returns git's answer, trimmed, as it is when that is an absolute
    path and joined to [path] otherwise. *)
Theorem GitDir_result (gitbin path : string) :
  (snd (git.GitDir h gitbin path) <> None ->
   fst (git.GitDir h gitbin path) = "")
  /\ (snd (git.GitDir h gitbin path) = None ->
      exists out,
        git.Output h (git.mkCmd gitbin ["-C"; path; "rev-parse"; "--git-dir"] "")
        = (out, None)
        /\ fst (git.GitDir h gitbin path)
           = if git.IsAbs h (git.TrimSpace h out) then git.TrimSpace h out
             else git.Join h path (git.TrimSpace h out)).
Proof.
  unfold git.GitDir.
  destruct (git.Output h _) as [out [[msg Err|msg Stderr|e]|]]; cbn [fst snd];
    split; try reflexivity; try discriminate.
  - intros H. now elim H.
  - intros _. now exists out.
Qed.

(** [NewRepository] returns a repository exactly when it returns no
    error: never both, never neither. *)
Theorem NewRepository_repository_xor_error (path : string) :
  fst (git.NewRepository h path) = None
  <-> snd (git.NewRepository h path) <> None.
Proof.
  unfold git.NewRepository, git.IsShallow.
  destruct (git.findGitBin h) as [gitBin [e|]]; cbn [fst snd];
    [split; [discriminate | reflexivity]|].
  destruct (git.GitDir h gitBin path) as [gitDir [e|]]; cbn [fst snd];
    [split; [discriminate | reflexivity]|].
  destruct (git.Output h _) as [out [f|]].
  - cbn [fst snd]. split; [discriminate | intros H; now elim H].
  - destruct (git.Lstat h _); cbn [fst snd];
      split; try discriminate; try reflexivity. intros H; now elim H.
Qed.

(** [NewRepository] opens the repository exactly when git is found, the
    git directory is found and [IsShallow] answers false; the repository
    then records that git directory and that executable. *)
Theorem NewRepository_opens_iff (path : string) (repo : git.Repository) :
  git.NewRepository h path = (Some repo, None)
  <-> snd (git.findGitBin h) = None
      /\ snd (git.GitDir h (fst (git.findGitBin h)) path) = None
      /\ fst (git.IsShallow h (fst (git.findGitBin h))
                (fst (git.GitDir h (fst (git.findGitBin h)) path))) = false
      /\ repo = git.mkRepository
                  (fst (git.GitDir h (fst (git.findGitBin h)) path))
                  (fst (git.findGitBin h)).
Proof.
  unfold git.NewRepository.
  destruct (git.findGitBin h) as [gitBin [e|]]; cbn [fst snd].
  - split; [discriminate | intros [H _]; discriminate].
  - destruct (git.GitDir h gitBin path) as [gitDir [e|]]; cbn [fst snd].
    + split; [discriminate | intros [_ [H _]]; discriminate].
    + destruct (git.IsShallow h gitBin gitDir) as [[|] err]; cbn [fst snd].
      * split; [discriminate | intros [_ [_ [H _]]]; discriminate].
      * split.
        -- intros H. inversion H. auto.
        -- intros [_ [_ [_ ->]]]. reflexivity.
Qed.

Lemma NewRepository_opened (path : string) (repo : git.Repository) :
  git.NewRepository h path = (Some repo, None) ->
  repo = git.mkRepository
           (fst (git.GitDir h (fst (git.findGitBin h)) path))
           (fst (git.findGitBin h)).
Proof.
  unfold git.NewRepository.
  destruct (git.findGitBin h) as [gitBin [e|]]; cbn [fst snd]; [discriminate|].
  destruct (git.GitDir h gitBin path) as [gitDir [e|]]; cbn [fst snd];
    [discriminate|].
  destruct (git.IsShallow h gitBin gitDir) as [[|] err]; [discriminate|].
  intros H. now inversion H.
Qed.

(** A command built for a repository that [NewRepository] opened runs the
    executable that [findGitBin] chose, passes the caller's arguments
    unchanged and in order after three fixed arguments, and adds to the
    environment, at its end, [GIT_DIR] set to the git directory that
    [Path] returns and [GIT_GRAFT_FILE] set to the null device. *)
Theorem GitCommand_of_opened_repository (path : string) (repo : git.Repository)
        (environ : list string) (devNull : string) (callerArgs : list string) :
  git.NewRepository h path = (Some repo, None) ->
  let c := git.GitCommand environ devNull repo callerArgs in
  git.Path (git.command c) = fst (git.findGitBin h)
  /\ git.Repository_Path repo
     = fst (git.GitDir h (fst (git.findGitBin h)) path)
  /\ firstn 3 (git.Args (git.command c))
     = ["--no-replace-objects"; "-c"; "advice.graftFileDeprecated=false"]
  /\ skipn 3 (git.Args (git.command c)) = callerArgs
  /\ git.Env c
     = (environ ++ [("GIT_DIR=" ++ git.Repository_Path repo)%string;
                    ("GIT_GRAFT_FILE=" ++ devNull)%string])%list.
Proof.
  intros Hopen. apply NewRepository_opened in Hopen as ->.
  cbn. repeat split; reflexivity.
Qed.

End OpeningFurther.

(** ** Flag values *)

Section FlagValuesFurther.

Variable w : World.
Local Open Scope list_scope.

Lemma ParseBool_FormatBool (b : bool) :
  strconv.ParseBool (quote w) (strconv.FormatBool b) = (b, None).
Proof. now destruct b. Qed.

Lemma ParseBool_error (s : string) (e : error) :
  snd (strconv.ParseBool (quote w) s) = Some e ->
  fst (strconv.ParseBool (quote w) s) = false.
Proof.
  unfold strconv.ParseBool.
  destruct (existsb _ _); [discriminate|].
  destruct (existsb _ _); [discriminate | reflexivity].
Qed.

(** What [String] prints is accepted by [Set] and read back by [Get]:
    parsing it gives the value [Get] returns, setting it leaves the
    variable as it is, and after any successful [Set] of [s], [Get]
    returns the boolean that [s] spells while the variable holds its
    negation. *)
Theorem NegatedBoolValue_round_trip (v : Vars) (s : string) (b : bool) :
  strconv.ParseBool (quote w) (NegatedBoolValue_String (Some (progress v)))
  = (NegatedBoolValue_Get v, None)
  /\ NegatedBoolValue_Set w (NegatedBoolValue_String (Some (progress v))) v
     = (set_progress (progress v) v, None)
  /\ (strconv.ParseBool (quote w) s = (b, None) ->
      snd (NegatedBoolValue_Set w s v) = None
      /\ progress (fst (NegatedBoolValue_Set w s v)) = negb b
      /\ NegatedBoolValue_Get (fst (NegatedBoolValue_Set w s v)) = b
      /\ NegatedBoolValue_String
           (Some (progress (fst (NegatedBoolValue_Set w s v))))
         = strconv.FormatBool b).
Proof.
  unfold NegatedBoolValue_Set, NegatedBoolValue_String, NegatedBoolValue_Get.
  rewrite ParseBool_FormatBool. cbn [fst snd].
  rewrite negb_involutive.
  split; [reflexivity|]. split; [reflexivity|].
  intros ->. cbn. now rewrite negb_involutive.
Qed.

(** A string that is not a boolean makes [Set] return the parse error,
    but not before it has written the variable: [progress] is then true
    whatever it was. *)
Theorem NegatedBoolValue_Set_writes_on_error (v : Vars) (s : string)
        (e : error) :
  snd (strconv.ParseBool (quote w) s) = Some e ->
  NegatedBoolValue_Set w s v = (set_progress true v, Some e).
Proof.
  intros H. pose proof (ParseBool_error s e H) as Hb.
  unfold NegatedBoolValue_Set.
  destruct (strconv.ParseBool (quote w) s) as [b err].
  cbn in H, Hb. now subst.
Qed.

(** [Type] tells how [Set] treats its argument.  A prefix option accepts
    every string; a regexp option accepts exactly the strings that
    [RegexpFilter] accepts; a bool option passes on every error of
    [ParseBool]. *)
Theorem filterValue_Type_and_Set (fv : filterValue) (s : string)
        (rules : git.IncludeExcludeFilter) :
  (filterValue_Type fv = "prefix"%string ->
   snd (filterValue_Set w fv s rules) = None)
  /\ (filterValue_Type fv = "regexp"%string ->
      (snd (filterValue_Set w fv s rules) = None
       <-> exists f, RegexpFilter w s = inr f))
  /\ (filterValue_Type fv = "bool"%string ->
      forall e, snd (strconv.ParseBool (quote w) s) = Some e ->
                filterValue_Set w fv s rules = (rules, Some e))
  /\ In (filterValue_Type fv) ["bool"; "regexp"; "prefix"]%string.
Proof.
  unfold filterValue_Type, filterValue_Set.
  destruct (negb (fv_pattern fv =? "")%string) eqn:Hpat.
  - split; [discriminate|]. split; [discriminate|].
    split; [|now left].
    intros _ e He.
    destruct (strconv.ParseBool (quote w) s) as [b err]. cbn in He.
    now subst.
  - destruct (fv_regexp fv).
    + split; [discriminate|]. split; [|split; [discriminate | right; now left]].
      intros _. destruct (RegexpFilter w s) as [e|f].
      * split; [discriminate | intros [f Hf]; discriminate].
      * split; [intros _; now exists f|].
        intros _. now destruct (fv_polarity fv).
    + split; [|split; [discriminate|split; [discriminate|right; right; now left]]].
      intros _. now destruct (fv_polarity fv).
Qed.

(** [Set] either fails and leaves the filter untouched, or succeeds and
    has called exactly one of [Include] and [Exclude], once. *)
Theorem filterValue_Set_all_or_nothing (fv : filterValue) (s : string)
        (rules : git.IncludeExcludeFilter) :
  (snd (filterValue_Set w fv s rules) <> None
   /\ fst (filterValue_Set w fv s rules) = rules)
  \/ (snd (filterValue_Set w fv s rules) = None
      /\ exists f,
          fst (filterValue_Set w fv s rules) = git.IncludeRule f rules
          \/ fst (filterValue_Set w fv s rules) = git.ExcludeRule f rules).
Proof.
  unfold filterValue_Set.
  destruct (negb (fv_pattern fv =? "")%string).
  - destruct (strconv.ParseBool (quote w) s) as [b [e|]];
      [left; now split|].
    destruct (fv_regexp fv).
    + destruct (RegexpFilter w (fv_pattern fv)) as [e|f];
        [left; now split|].
      right. destruct (if negb b then _ else _); cbn; eauto.
    + right. destruct (if negb b then _ else _); cbn; eauto.
  - destruct (fv_regexp fv).
    + destruct (RegexpFilter w s) as [e|f]; [left; now split|].
      right. destruct (fv_polarity fv); cbn; eauto.
    + right. destruct (fv_polarity fv); cbn; eauto.
Qed.

End FlagValuesFurther.

(** ** The order of the checks in mainImplementation *)

Section RunFurther.

Variable w : World.
Local Open Scope list_scope.

Lemma lookupFlag_help : lookupFlag w "help" = None.
Proof. reflexivity. Qed.

(** A request for help that is reached by the parse prints the usage text
    and makes the run return nil; whatever was parsed before it and
    whatever follows it plays no part, and nothing else is done. *)
Theorem help_prints_usage_and_succeeds (pre post : list Arg) (v : Vars)
        (ops : list string) (value : option string) :
  fst (Parse w pre (initialVars w) []) = (v, ops, None) ->
  mainImplementation w (pre ++ Opt "help" value :: post)
  = (None, [EvStdout Usage]).
Proof.
  intros Hpre. unfold mainImplementation.
  rewrite (Parse_app w pre _ _ _ _ _ Hpre). reflexivity.
Qed.

(** With [--version] the run prints one line, the release when there is
    one and the build otherwise, and returns nil: operands are not
    looked at and no repository is opened. *)
Theorem version_is_reported_without_a_repository (args : list Arg) (v : Vars)
        (ops : list string) :
  fst (Parse w args (initialVars w) []) = (v, ops, None) ->
  (jsonOutput v && negb ((jsonVersion v =? 1)%N || (jsonVersion v =? 2)%N))
  = false ->
  cpuprofile v = ""%string ->
  version v = true ->
  mainImplementation w args
  = (None,
     [EvStdout (if negb (ReleaseVersion w =? "")%string
                then ("git-sizer release " ++ ReleaseVersion w ++ nl)%string
                else ("git-sizer build " ++ BuildVersion w ++ nl)%string)]).
Proof.
  intros Hparse Hjson Hcpu Hver.
  rewrite (mainImplementation_parsed w _ _ _ Hparse).
  unfold afterParse, withCPUProfile. now rewrite Hjson, Hcpu, Hver.
Qed.

(** When the flags parse, the JSON check passes and [--version] is not
    given, an operand ends the run before the repository is opened: the
    run returns the error excess arguments, having done nothing when no
    CPU profile is asked for, and having only created, started and
    stopped the profile when one is; when the file of the profile cannot
    be created the error is that of the creation instead. *)
Theorem operands_are_excess_arguments (args : list Arg) (v : Vars)
        (ops : list string) :
  fst (Parse w args (initialVars w) []) = (v, ops, None) ->
  (jsonOutput v && negb ((jsonVersion v =? 1)%N || (jsonVersion v =? 2)%N))
  = false ->
  version v = false ->
  ops <> [] ->
  mainImplementation w args
  = if (cpuprofile v =? "")%string
    then (Some (errorString "excess arguments"), [])
    else match Create w (cpuprofile v) with
         | None =>
             (Some (errorString "excess arguments"),
              [EvCreate (cpuprofile v); EvStartCPUProfile; EvStopCPUProfile])
         | Some e =>
             (Some (errorString
                      ("couldn't set up cpuprofile file: " ++ Error e)%string),
              [EvCreate (cpuprofile v)])
         end.
Proof.
  intros Hparse Hjson Hver Hops.
  rewrite (mainImplementation_parsed w _ _ _ Hparse).
  unfold afterParse, withCPUProfile. rewrite Hjson, Hver.
  destruct ops as [|o ops']; [now elim Hops|].
  destruct (cpuprofile v =? "")%string; [reflexivity|].
  cbn [negb]. now destruct (Create w (cpuprofile v)).
Qed.

(** Without [--json] the JSON version is never looked at: the run is the
    same whatever [--json-version] was given. *)
Theorem json_version_is_unused_without_json (v : Vars) (ops : list string)
        (n : N) :
  jsonOutput v = false ->
  afterParse w (set_jsonVersion n v) ops None = afterParse w v ops None.
Proof.
  intros Hjson. unfold afterParse, withCPUProfile, scanAndReport, writeResult.
  cbn [jsonOutput jsonVersion cpuprofile version filter showRefs nameStyle
       progress threshold set_jsonVersion].
  rewrite Hjson. reflexivity.
Qed.

End RunFurther.

Section DeferFurther.

Variable w : World.
Local Open Scope list_scope.

Ltac differs :=
  let H := fresh in intros H; cbn in H; unfold errors_New in H; discriminate H.

Lemma afterParse_json_error (v : Vars) (ops : list string) :
  fst (afterParse w v ops None)
  = Some (errorString "JSON version must be 1 or 2") ->
  snd (afterParse w v ops None) = [].
Proof.
  unfold afterParse.
  destruct (jsonOutput v && _) eqn:Hcheck; [reflexivity|].
  intros H. exfalso. revert H.
  assert (Hbody :
    fst (if version v
         then bind (emit (EvStdout
                      (if negb (ReleaseVersion w =? "")%string
                       then ("git-sizer release " ++ ReleaseVersion w ++ nl)%string
                       else ("git-sizer build " ++ BuildVersion w ++ nl)%string)))
                   (fun _ => ret None)
         else if negb (Datatypes.length ops =? 0)%nat
              then ret (Some (errors_New "excess arguments"))
              else scanAndReport w v)
    <> Some (errorString "JSON version must be 1 or 2")).
  { destruct (version v); [differs|].
    destruct (negb (Datatypes.length ops =? 0)%nat); [differs|].
    rewrite scanAndReport_result.
    destruct (git.NewRepository (host w) ".") as [repo [e|]];
      [differs|].
    destruct (Scan w repo _ _ _) as [names [hs [e|]]]; [differs|].
    unfold writeResult.
    destruct (jsonOutput v); [|differs].
    destruct (jsonVersion v =? 1)%N.
    - destruct (MarshalIndent w hs); differs.
    - destruct (jsonVersion v =? 2)%N; [|discriminate Hcheck].
      destruct (JSON w hs _ _); differs. }
  unfold withCPUProfile.
  destruct (negb (cpuprofile v =? "")%string); [|exact Hbody].
  destruct (Create w (cpuprofile v)); [differs|].
  exact Hbody.
Qed.

(** The error JSON version must be 1 or 2 is only ever returned before
    anything has been done: no file created, no repository opened, no
    scan, nothing printed. *)
Theorem json_version_error_precedes_all_work (args : list Arg) :
  fst (mainImplementation w args)
  = Some (errorString "JSON version must be 1 or 2") ->
  snd (mainImplementation w args) = [].
Proof.
  unfold mainImplementation, bind. cbn [fst snd].
  destruct (fst (Parse w args (initialVars w) [])) as [[v ops] [e|]] eqn:Hp.
  - cbn [fst snd afterParse].
    destruct (Parse_events w args (initialVars w) []) as [E|[_ E]].
    + rewrite E. now destruct e.
    + rewrite Hp in E. cbn in E. inversion E; subst. discriminate.
  - rewrite (Parse_ok_silent w _ _ _ _ _ Hp). cbn [fst snd app].
    apply afterParse_json_error.
Qed.


(** Once the run has got as far as opening the repository: when the
    opening succeeds, closing the repository comes after everything else
    the run does, the scan and the output included, also when the scan or
    the encoding of the result fails, and only the stop of a CPU profile,
    when one is running, comes after it; when the opening fails there is
    nothing to close and nothing else is done. *)
Theorem repository_is_closed_last (args : list Arg) (v : Vars) :
  reachesScan w args v ->
  let before := if (cpuprofile v =? "")%string then []
                else [EvCreate (cpuprofile v); EvStartCPUProfile] in
  let after := if (cpuprofile v =? "")%string then []
               else [EvStopCPUProfile] in
  (snd (git.NewRepository (host w) ".") = None ->
   exists events,
     snd (mainImplementation w args)
     = before ++ EvNewRepository "." :: events ++ EvClose :: after)
  /\ (snd (git.NewRepository (host w) ".") <> None ->
      snd (mainImplementation w args)
      = before ++ EvNewRepository "." :: after).
Proof.
  intros (Hparse & Hjson & Hprof & Hver).
  rewrite (mainImplementation_parsed w _ _ _ Hparse).
  assert (Hscan :
    (snd (git.NewRepository (host w) ".") = None ->
     exists events,
       snd (scanAndReport w v) = EvNewRepository "." :: events ++ [EvClose])
    /\ (snd (git.NewRepository (host w) ".") <> None ->
        snd (scanAndReport w v) = [EvNewRepository "."])).
  { unfold scanAndReport.
    destruct (git.NewRepository (host w) ".") as [repo [e|]]; cbn [fst snd].
    - split; [discriminate | reflexivity].
    - split; [|intros H; now elim H].
      intros _. unfold bind, defer, emit. cbn [fst snd app]. eauto. }
  unfold afterParse, withCPUProfile. rewrite Hjson, Hver.
  cbn [Datatypes.length Nat.eqb negb].
  destruct (cpuprofile v =? "")%string eqn:Hcpu; cbn [negb app].
  - exact Hscan.
  - destruct Hprof as [Hprof|Hprof];
      [rewrite Hprof in Hcpu; discriminate|].
    rewrite Hprof. unfold bind, defer, emit. cbn [fst snd app].
    destruct Hscan as [Hok Hfail]. split.
    + intros Hopen. destruct (Hok Hopen) as [events ->].
      exists events. cbn [app]. now rewrite <- app_assoc.
    + intros Hopen. now rewrite (Hfail Hopen).
Qed.

End DeferFurther.

(** ** Progress *)

Section ProgressFurther.

Variable w : World.

(** [--no-progress=s] does what [--progress] does with the opposite
    boolean: for every spelling [s] of a boolean [b], the two parses end
    in the same variables. *)
Theorem no_progress_is_negated_progress (s : string) (b : bool) (v : Vars)
        (ops : list string) :
  strconv.ParseBool (quote w) s = (b, None) ->
  Parse w [Opt "no-progress" (Some s)] v ops
  = Parse w [Opt "progress" (Some (strconv.FormatBool (negb b)))] v ops
  /\ progress (fst (fst (fst (Parse w [Opt "no-progress" (Some s)] v ops))))
     = negb b.
Proof.
  intros Hs. cbn [Parse lookupFlag flags List.find Name String.eqb Ascii.eqb
                  Bool.eqb Value_Set NoOptDefVal].
  unfold NegatedBoolValue_Set, boolValue_Set.
  rewrite Hs. now destruct b.
Qed.

End ProgressFurther.

(** ** The further properties at work in the example world *)

Lemma NewRepository_ignores_IsShallow_failure_witness :
  (git.findGitBin Example.machineWithoutGitPath = ("/usr/bin/git", None)
   /\ git.GitDir Example.machineWithoutGitPath "/usr/bin/git" "."
      = (".git", None)
   /\ git.Output Example.machineWithoutGitPath
                 (git.mkCmd "/usr/bin/git"
                            ["rev-parse"; "--git-path"; "shallow"] ".git")
      = ("", Some (git.ExitError "exit status 128" "fatal")))
  /\ git.NewRepository Example.machineWithoutGitPath "."
     = (Some (git.mkRepository ".git" "/usr/bin/git"), None).
Proof.
  split; [repeat split; reflexivity|].
  apply (NewRepository_ignores_IsShallow_failure Example.machineWithoutGitPath
           "." "/usr/bin/git" ".git" ""
           (git.ExitError "exit status 128" "fatal")); reflexivity.
Defined.

Lemma GitCommand_of_opened_repository_witness :
  git.NewRepository (host Example.fullClone) "."
  = (Some (git.mkRepository ".git" "/usr/bin/git"), None)
  /\ (let c := git.GitCommand ["HOME=/root"] "/dev/null"
                              (git.mkRepository ".git" "/usr/bin/git")
                              ["cat-file"; "--batch"] in
      git.Path (git.command c) = fst (git.findGitBin (host Example.fullClone))
      /\ git.Repository_Path (git.mkRepository ".git" "/usr/bin/git")
         = fst (git.GitDir (host Example.fullClone)
                           (fst (git.findGitBin (host Example.fullClone))) ".")
      /\ firstn 3 (git.Args (git.command c))
         = ["--no-replace-objects"; "-c"; "advice.graftFileDeprecated=false"]
      /\ skipn 3 (git.Args (git.command c)) = ["cat-file"; "--batch"]
      /\ git.Env c
         = (["HOME=/root"]
              ++ [("GIT_DIR="
                     ++ git.Repository_Path
                          (git.mkRepository ".git" "/usr/bin/git"))%string;
                  ("GIT_GRAFT_FILE=" ++ "/dev/null")%string])%list).
Proof.
  split; [reflexivity|].
  apply (GitCommand_of_opened_repository (host Example.fullClone) "."
           (git.mkRepository ".git" "/usr/bin/git") ["HOME=/root"] "/dev/null"
           ["cat-file"; "--batch"]).
  reflexivity.
Defined.

Lemma NegatedBoolValue_Set_writes_on_error_witness :
  snd (strconv.ParseBool (quote Example.fullClone) "maybe")
  = Some (errorString
            ("strconv.ParseBool: parsing " ++ quote Example.fullClone "maybe"
               ++ ": invalid syntax"))
  /\ NegatedBoolValue_Set Example.fullClone "maybe"
       (set_progress false (initialVars Example.fullClone))
     = (set_progress true (set_progress false (initialVars Example.fullClone)),
        Some (errorString
                ("strconv.ParseBool: parsing "
                   ++ quote Example.fullClone "maybe" ++ ": invalid syntax"))).
Proof.
  split; [reflexivity|].
  apply (NegatedBoolValue_Set_writes_on_error Example.fullClone
           (set_progress false (initialVars Example.fullClone)) "maybe").
  reflexivity.
Defined.

Lemma help_prints_usage_and_succeeds_witness :
  fst (Parse Example.fullClone
             [Opt "json" None; Opt "json-version" (Some "3")]
             (initialVars Example.fullClone) [])
  = (set_jsonVersion 3 (set_jsonOutput true (initialVars Example.fullClone)),
     [], None)
  /\ mainImplementation Example.fullClone
       ([Opt "json" None; Opt "json-version" (Some "3")]
          ++ Opt "help" None :: [Operand "extra"])%list
     = (None, [EvStdout Usage]).
Proof.
  split; [reflexivity|].
  apply (help_prints_usage_and_succeeds Example.fullClone
           [Opt "json" None; Opt "json-version" (Some "3")] [Operand "extra"]
           (set_jsonVersion 3
              (set_jsonOutput true (initialVars Example.fullClone)))
           [] None).
  reflexivity.
Defined.

Lemma version_is_reported_without_a_repository_witness :
  (fst (Parse Example.fullClone [Opt "version" None; Operand "extra"]
              (initialVars Example.fullClone) [])
   = (set_version true (initialVars Example.fullClone), ["extra"], None)
   /\ (jsonOutput (set_version true (initialVars Example.fullClone))
       && negb ((jsonVersion (set_version true (initialVars Example.fullClone))
                 =? 1)%N
                || (jsonVersion (set_version true (initialVars Example.fullClone))
                    =? 2)%N)) = false
   /\ cpuprofile (set_version true (initialVars Example.fullClone)) = ""
   /\ version (set_version true (initialVars Example.fullClone)) = true)
  /\ mainImplementation Example.fullClone [Opt "version" None; Operand "extra"]
     = (None,
        [EvStdout (if negb (ReleaseVersion Example.fullClone =? "")
                   then "git-sizer release "
                          ++ ReleaseVersion Example.fullClone ++ nl
                   else "git-sizer build "
                          ++ BuildVersion Example.fullClone ++ nl)]).
Proof.
  split; [repeat split; reflexivity|].
  apply (version_is_reported_without_a_repository Example.fullClone
           [Opt "version" None; Operand "extra"]
           (set_version true (initialVars Example.fullClone)) ["extra"]);
    reflexivity.
Defined.

Lemma operands_are_excess_arguments_witness :
  (fst (Parse Example.fullClone [Opt "cpuprofile" (Some "cpu.prof"); Operand "extra"]
              (initialVars Example.fullClone) [])
   = ((set_cpuprofile "cpu.prof" (initialVars Example.fullClone)), ["extra"], None)
   /\ (jsonOutput (set_cpuprofile "cpu.prof" (initialVars Example.fullClone))
       && negb ((jsonVersion (set_cpuprofile "cpu.prof" (initialVars Example.fullClone)) =? 1)%N
                || (jsonVersion (set_cpuprofile "cpu.prof" (initialVars Example.fullClone)) =? 2)%N))
      = false
   /\ version (set_cpuprofile "cpu.prof" (initialVars Example.fullClone)) = false
   /\ ["extra"] <> [])
  /\ mainImplementation Example.fullClone [Opt "cpuprofile" (Some "cpu.prof"); Operand "extra"]
     = if cpuprofile (set_cpuprofile "cpu.prof" (initialVars Example.fullClone)) =? ""
       then (Some (errorString "excess arguments"), [])
       else match Create Example.fullClone (cpuprofile (set_cpuprofile "cpu.prof" (initialVars Example.fullClone))) with
            | None =>
                (Some (errorString "excess arguments"),
                 [EvCreate (cpuprofile (set_cpuprofile "cpu.prof" (initialVars Example.fullClone))); EvStartCPUProfile;
                  EvStopCPUProfile])
            | Some e =>
                (Some (errorString
                         ("couldn't set up cpuprofile file: " ++ Error e)),
                 [EvCreate (cpuprofile (set_cpuprofile "cpu.prof" (initialVars Example.fullClone)))])
            end.
Proof.
  split; [repeat split; try reflexivity; discriminate|].
  apply (operands_are_excess_arguments Example.fullClone [Opt "cpuprofile" (Some "cpu.prof"); Operand "extra"]
           (set_cpuprofile "cpu.prof" (initialVars Example.fullClone)) ["extra"]);
    try reflexivity; discriminate.
Defined.

Lemma json_version_is_unused_without_json_witness :
  jsonOutput (initialVars Example.fullClone) = false
  /\ afterParse Example.fullClone
       (set_jsonVersion 7 (initialVars Example.fullClone)) [] None
     = afterParse Example.fullClone (initialVars Example.fullClone) [] None.
Proof.
  split; [reflexivity|].
  apply (json_version_is_unused_without_json Example.fullClone
           (initialVars Example.fullClone) [] 7).
  reflexivity.
Defined.

Lemma json_version_error_precedes_all_work_witness :
  fst (mainImplementation Example.fullClone
         [Opt "json" None; Opt "json-version" (Some "3")])
  = Some (errorString "JSON version must be 1 or 2")
  /\ snd (mainImplementation Example.fullClone
            [Opt "json" None; Opt "json-version" (Some "3")])
     = [].
Proof.
  split; [reflexivity|].
  apply (json_version_error_precedes_all_work Example.fullClone
           [Opt "json" None; Opt "json-version" (Some "3")]).
  reflexivity.
Defined.


Lemma repository_is_closed_last_witness :
  reachesScan Example.fullClone [Opt "cpuprofile" (Some "cpu.prof")]
              (set_cpuprofile "cpu.prof" (initialVars Example.fullClone))
  /\ (let before := if cpuprofile (set_cpuprofile "cpu.prof" (initialVars Example.fullClone)) =? "" then []
                    else [EvCreate (cpuprofile (set_cpuprofile "cpu.prof" (initialVars Example.fullClone))); EvStartCPUProfile] in
      let after := if cpuprofile (set_cpuprofile "cpu.prof" (initialVars Example.fullClone)) =? "" then []
                   else [EvStopCPUProfile] in
      (snd (git.NewRepository (host Example.fullClone) ".") = None ->
       exists events,
         snd (mainImplementation Example.fullClone [Opt "cpuprofile" (Some "cpu.prof")])
         = (before ++ EvNewRepository "." :: events ++ EvClose :: after)%list)
      /\ (snd (git.NewRepository (host Example.fullClone) ".") <> None ->
          snd (mainImplementation Example.fullClone [Opt "cpuprofile" (Some "cpu.prof")])
          = (before ++ EvNewRepository "." :: after)%list)).
Proof.
  assert (Hreach : reachesScan Example.fullClone [Opt "cpuprofile" (Some "cpu.prof")]
                     (set_cpuprofile "cpu.prof" (initialVars Example.fullClone))).
  { unfold reachesScan. repeat split; try reflexivity. now right. }
  split; [exact Hreach|].
  apply (repository_is_closed_last Example.fullClone [Opt "cpuprofile" (Some "cpu.prof")]
           (set_cpuprofile "cpu.prof" (initialVars Example.fullClone)) Hreach).
Defined.

Lemma no_progress_is_negated_progress_witness :
  strconv.ParseBool (quote Example.fullClone) "F" = (false, None)
  /\ (Parse Example.fullClone [Opt "no-progress" (Some "F")]
             (initialVars Example.fullClone) []
      = Parse Example.fullClone
              [Opt "progress" (Some (strconv.FormatBool (negb false)))]
              (initialVars Example.fullClone) []
      /\ progress (fst (fst (fst (Parse Example.fullClone
                                        [Opt "no-progress" (Some "F")]
                                        (initialVars Example.fullClone) []))))
         = negb false).
Proof.
  split; [reflexivity|].
  apply (no_progress_is_negated_progress Example.fullClone "F" false
           (initialVars Example.fullClone) []).
  reflexivity.
Defined.
